(** * Staged calibration of a rigid-body simulator: a shallow embedding

    The development follows the three Python sources of the repository:

    - [src/simulator.py]: class [Simulator] ([__init__] and
      [run_simulation_for_trajectory]);
    - [src/optimizer.py]: [BayesianOptimizer._calculate_rmse];
    - [main.py]: [calculate_rmse], [objective_function] and
      [run_staged_calibration].

    Python floats are modelled as real numbers: rounding, overflow and
    infinities are outside the model.  The one non-numeric float that the
    code produces structurally, numpy's NaN for the mean of an empty array,
    is kept as a separate constructor.  The physics engine (pymunk) and the
    optimizer (skopt) are external libraries; they are interfaces here. *)

From Stdlib Require Import String.
From Stdlib Require Import Reals Lra ZArith Lia List Bool Permutation.
Import ListNotations.

Local Open Scope R_scope.

(** ** Values *)

(** A point or vector of the plane: pymunk's [Vec2d], a row of a numpy
    array of shape [(n, 2)]. *)
Definition Vec : Type := (R * R)%type.

(** Python exceptions that the modelled code can raise. *)
Inductive exn : Type :=
| IndexError      (* list or array index out of range *)
| KeyError        (* missing dict key *)
| ValueError      (* numpy: operands could not be broadcast together *)
| BackendError.   (* raised inside the physics engine or the optimizer *)

Inductive result (A : Type) : Type :=
| Ok (a : A)
| Raise (e : exn).
Arguments Ok {A} a.
Arguments Raise {A} e.

(** A numpy float64 scalar, as far as this development needs it. *)
Inductive npfloat : Type :=
| Num (r : R)
| NaN.

(** ** numpy on trajectories *)

(** [np.array(trajectory)]: a list of [n >= 1] points gives an array of
    shape [(n, 2)], kept as its list of rows; the empty list gives the
    array of shape [(0,)], kept as [[]]. *)
Definition ndarray : Type := list Vec.

Definition vsub (p q : Vec) : Vec := (fst p - fst q, snd p - snd q).
Definition vsquare (p : Vec) : Vec := (fst p ^ 2, snd p ^ 2).

Fixpoint zip_sub (t1 t2 : ndarray) : ndarray :=
  match t1, t2 with
  | p :: t1', q :: t2' => vsub p q :: zip_sub t1' t2'
  | _, _ => []
  end.

(** [t1 - t2] with numpy's broadcasting rules on the shapes above:
    equal shapes subtract row by row; a single row [(1, 2)] is stretched
    along the other operand's [(m, 2)]; every other pair of shapes,
    [(0,)] against [(m, 2)] included, raises [ValueError]. *)
Definition np_sub (t1 t2 : ndarray) : result ndarray :=
  if Nat.eqb (length t1) (length t2) then Ok (zip_sub t1 t2)
  else match t1, t2 with
       | [p], _ :: _ => Ok (map (fun q => vsub p q) t2)
       | _ :: _, [q] => Ok (map (fun p => vsub p q) t1)
       | _, _ => Raise ValueError
       end.

(** [d ** 2], elementwise. *)
Definition np_square (d : ndarray) : ndarray := map vsquare d.

(** All scalar elements of an array, row-major. *)
Definition ravel (d : ndarray) : list R :=
  flat_map (fun p => [fst p; snd p]) d.

Definition Rsum (l : list R) : R := fold_right Rplus 0 l.

(** [np.mean(d)]: the mean over all elements of both coordinates; NaN on
    an empty array. *)
Definition np_mean (d : ndarray) : npfloat :=
  match ravel d with
  | [] => NaN
  | x :: l => Num (Rsum (x :: l) / INR (length (x :: l)))
  end.

Definition np_sqrt (v : npfloat) : npfloat :=
  match v with
  | Num r => Num (sqrt r)
  | NaN => NaN
  end.

(** [t[-1]] on an array: the last row, [IndexError] on the empty array. *)
Fixpoint last_row (t : ndarray) : result Vec :=
  match t with
  | [] => Raise IndexError
  | [p] => Ok p
  | _ :: t' => last_row t'
  end.

(** [np.tile(row, (k, 1))]. *)
Definition np_tile (row : Vec) (k : nat) : ndarray := repeat row k.

(** [np.vstack([t, padding])]. *)
Definition np_vstack (t padding : ndarray) : ndarray := t ++ padding.

(** ** main.py: [calculate_rmse]

<<
def calculate_rmse(t1, t2):
    t1, t2 = np.array(t1), np.array(t2)
    return np.sqrt(np.mean((t1 - t2)**2))
>> *)
Definition calculate_rmse (t1 t2 : list Vec) : result npfloat :=
  match np_sub t1 t2 with
  | Ok d => Ok (np_sqrt (np_mean (np_square d)))
  | Raise e => Raise e
  end.

(** ** src/optimizer.py: [BayesianOptimizer._calculate_rmse]

<<
len1, len2 = len(t1), len(t2)
if len1 > len2:
    padding = np.tile(t2[-1], (len1 - len2, 1))
    t2 = np.vstack([t2, padding])
elif len2 > len1:
    padding = np.tile(t1[-1], (len2 - len1, 1))
    t1 = np.vstack([t1, padding])
return np.sqrt(np.mean((t1 - t2)**2))
>> *)
Definition _calculate_rmse (trajectory1 trajectory2 : list Vec)
  : result npfloat :=
  let t1 := trajectory1 in
  let t2 := trajectory2 in
  let len1 := length t1 in
  let len2 := length t2 in
  if Nat.ltb len2 len1 then
    match last_row t2 with
    | Raise e => Raise e
    | Ok row =>
        let padding := np_tile row (len1 - len2) in
        let t2 := np_vstack t2 padding in
        match np_sub t1 t2 with
        | Ok d => Ok (np_sqrt (np_mean (np_square d)))
        | Raise e => Raise e
        end
    end
  else if Nat.ltb len1 len2 then
    match last_row t1 with
    | Raise e => Raise e
    | Ok row =>
        let padding := np_tile row (len2 - len1) in
        let t1 := np_vstack t1 padding in
        match np_sub t1 t2 with
        | Ok d => Ok (np_sqrt (np_mean (np_square d)))
        | Raise e => Raise e
        end
    end
  else
    match np_sub t1 t2 with
    | Ok d => Ok (np_sqrt (np_mean (np_square d)))
    | Raise e => Raise e
    end.

(** ** Python containers *)

(** A [dict] with string keys and float values.  Python dicts keep
    insertion order and [list(d.values())] reads it, so the model is an
    association list: assigning to a present key replaces the value in
    place, assigning to an absent key appends. *)
Definition dict : Type := list (string * R).

(** [d.get(k)], [None] when the key is absent. *)
Fixpoint dict_get (d : dict) (k : string) : option R :=
  match d with
  | [] => None
  | (k', v) :: d' => if String.eqb k k' then Some v else dict_get d' k
  end.

(** [d.get(k, default)]. *)
Definition dict_get_default (d : dict) (k : string) (default : R) : R :=
  match dict_get d k with
  | Some v => v
  | None => default
  end.

(** [d[k]]. *)
Definition dict_getitem (d : dict) (k : string) : result R :=
  match dict_get d k with
  | Some v => Ok v
  | None => Raise KeyError
  end.

(** [d[k] = v]. *)
Fixpoint dict_set (d : dict) (k : string) (v : R) : dict :=
  match d with
  | [] => [(k, v)]
  | (k', v') :: d' =>
      if String.eqb k k' then (k', v) :: d' else (k', v') :: dict_set d' k v
  end.

(** [list(d.values())]. *)
Definition dict_values (d : dict) : list R := map snd d.

(** [l[i]] for [i >= 0]. *)
Definition py_index {A : Type} (l : list A) (i : nat) : result A :=
  match nth_error l i with
  | Some a => Ok a
  | None => Raise IndexError
  end.

(** [enumerate(l)]. *)
Definition enumerate {A : Type} (l : list A) : list (nat * A) :=
  combine (seq 0 (length l)) l.

(** [range(n)]: empty when [n <= 0]. *)
Definition range (n : Z) : list Z := map Z.of_nat (seq 0 (Z.to_nat n)).

(** ** The physics engine (pymunk)

    What [Simulator.__init__] assembles, field by field: the space's
    gravity, the static floor segment, the dynamic body and its circle
    shape.  The engine turns such a scene into a running space; creating
    it may fail inside the engine.  On a space that was created, applying
    an impulse, stepping and reading the position are taken to succeed,
    and to be functions of the space: the engine has no state outside
    it.  A run in which pymunk raises inside [Space.step] (it does for a
    dynamic body of mass 0) is therefore not a run of this model: what
    is proved of a run, or of a value an evaluation returns, is proved
    of the runs the engine completes. *)
Record Segment : Type := {
  seg_a : Vec;
  seg_b : Vec;
  seg_radius : R;
  seg_friction : R
}.

Record Body : Type := {
  body_mass : R;
  body_moment : R;
  body_position : Vec
}.

Record Circle : Type := {
  circle_radius : R;
  circle_elasticity : R;
  circle_friction : R
}.

Record Scene : Type := {
  gravity : Vec;
  floor_shape : Segment;
  body : Body;
  shape : Circle
}.

Record Pymunk : Type := {
  (** a [pymunk.Space] together with the one dynamic body added to it *)
  Space : Type;
  (** [pymunk.moment_for_circle(mass, inner_radius, outer_radius)] *)
  moment_for_circle : R -> R -> R -> R;
  (** [Space()], [Segment], [Body], [Circle] and [space.add] on a scene *)
  space_create : Scene -> result Space;
  (** [body.apply_impulse_at_local_point(impulse, point)] *)
  apply_impulse_at_local_point : Vec -> Vec -> Space -> Space;
  (** [space.step(dt)] *)
  space_step : R -> Space -> Space;
  (** [body.position] *)
  position : Space -> Vec
}.

(** An impulse schedule: pairs [(t_impulse, impulse_vector)]. *)
Definition schedule : Type := list (Z * Vec).

(** ** src/simulator.py: class [Simulator] *)
Module Simulator.
Section WithEngine.
Context (pm : Pymunk).

(** The scene built by [__init__] from [params]:
<<
self.space = pymunk.Space()
self.space.gravity = (0, -1000)
floor_shape = pymunk.Segment(floor_body, (-5000, 50), (5000, 50), 5)
floor_shape.friction = 1.0
mass = params.get('mass', 10.0)
moment = pymunk.moment_for_circle(mass, 0, 20)
body = pymunk.Body(mass, moment)
body.position = (0, 300)
shape = pymunk.Circle(body, 20)
shape.elasticity = params.get('elasticity', 0.95)
shape.friction = params.get('friction', 0.7)
self.space.add(body, shape)
>> *)
Definition scene (params : dict) : Scene :=
  let mass := dict_get_default params "mass" 10.0 in
  let moment := moment_for_circle pm mass 0 20 in
  {| gravity := (0, -1000);
     floor_shape := {| seg_a := (-5000, 50); seg_b := (5000, 50);
                       seg_radius := 5; seg_friction := 1.0 |};
     body := {| body_mass := mass; body_moment := moment;
                body_position := (0, 300) |};
     shape := {| circle_radius := 20;
                 circle_elasticity := dict_get_default params "elasticity" 0.95;
                 circle_friction := dict_get_default params "friction" 0.7 |} |}.

(** [Simulator(params)]; [params=None] stands for the empty dict. *)
Definition __init__ (params : option dict) : result (Space pm) :=
  let params := match params with None => [] | Some d => d end in
  space_create pm (scene params).

(** The inner loop of one step: every schedule entry is visited in
    order, and applied when its index equals [step]; the impulse goes to
    the body's centre (pymunk's default point [(0, 0)]). *)
Definition apply_scheduled (step : Z) (impulses : schedule)
    (self : Space pm) : Space pm :=
  fold_left
    (fun self '(t_impulse, impulse_vector) =>
       if Z.eqb step t_impulse
       then apply_impulse_at_local_point pm impulse_vector (0, 0) self
       else self)
    impulses self.

(** One iteration of the outer loop, without the recording. *)
Definition advance (impulses : schedule) (self : Space pm) (step : Z)
  : Space pm :=
  space_step pm (1 / 60.0) (apply_scheduled step impulses self).

(** [run_simulation_for_trajectory]: returns the simulator as the loop
    leaves it, and the trajectory.
<<
trajectory = []
for step in range(steps):
    for t_impulse, impulse_vector in impulses:
        if step == t_impulse:
            self.body.apply_impulse_at_local_point(impulse_vector)
    self.space.step(1 / 60.0)
    trajectory.append(self.body.position)
return trajectory
>> *)
Definition run_simulation_for_trajectory (self : Space pm) (steps : Z)
    (impulses : schedule) : Space pm * list Vec :=
  fold_left
    (fun '(self, trajectory) step =>
       let self := advance impulses self step in
       (self, trajectory ++ [position pm self]))
    (range steps) (self, []).
End WithEngine.
End Simulator.

(** ** Program state and the evaluation monad

    [main.py] keeps two module globals, [call_count] and [current_stage],
    and prints to standard output.  Dicts that are handed from one function
    to another live in a store and are named by their address, so that a
    write through one name is seen through every other. *)

(** A printed line.  The text of the f-strings is kept as data; the
    rounding of the numbers to two or four decimals is not modelled. *)
Inductive line : Type :=
| Header (stage what : string)
| GuessLine (stage : string) (guess : Z) (items : dict) (rmse : npfloat)
| StageALine (e m : R)
| StageBLine (f : R).

Definition ref : Type := nat.

Record pystate : Type := {
  call_count : Z;
  current_stage : string;
  stdout : list line;
  heap : list dict
}.

Definition M (A : Type) : Type := pystate -> result A * pystate.

Definition ret {A : Type} (a : A) : M A := fun st => (Ok a, st).

Definition raise {A : Type} (e : exn) : M A := fun st => (Raise e, st).

Definition bind {A B : Type} (c : M A) (k : A -> M B) : M B :=
  fun st =>
    match c st with
    | (Ok a, st') => k a st'
    | (Raise e, st') => (Raise e, st')
    end.

Notation "x <- c ;; k" := (bind c (fun x => k))
  (at level 61, c at next level, right associativity).
Notation "c ;; k" := (bind c (fun _ => k))
  (at level 61, right associativity).

Definition lift {A : Type} (r : result A) : M A := fun st => (r, st).

Definition get_call_count : M Z := fun st => (Ok (call_count st), st).

Definition set_call_count (n : Z) : M unit :=
  fun st => (Ok tt, {| call_count := n; current_stage := current_stage st;
                       stdout := stdout st; heap := heap st |}).

Definition get_current_stage : M string :=
  fun st => (Ok (current_stage st), st).

Definition set_current_stage (s : string) : M unit :=
  fun st => (Ok tt, {| call_count := call_count st; current_stage := s;
                       stdout := stdout st; heap := heap st |}).

Definition print (l : line) : M unit :=
  fun st => (Ok tt, {| call_count := call_count st;
                       current_stage := current_stage st;
                       stdout := stdout st ++ [l]; heap := heap st |}).

Definition set_heap (h : list dict) (st : pystate) : pystate :=
  {| call_count := call_count st; current_stage := current_stage st;
     stdout := stdout st; heap := h |}.

(** The dict at an address (addresses handed out by [new_dict] always
    exist). *)
Definition heap_get (h : list dict) (r : ref) : dict := nth r h [].

Fixpoint heap_set (h : list dict) (r : ref) (d : dict) : list dict :=
  match h, r with
  | [], _ => []
  | _ :: h', O => d :: h'
  | d' :: h', S r' => d' :: heap_set h' r' d
  end.

(** A dict display [{...}]: a fresh object. *)
Definition new_dict (d : dict) : M ref :=
  fun st => (Ok (length (heap st)), set_heap (heap st ++ [d]) st).

(** Reading the whole dict behind a name. *)
Definition deref (r : ref) : M dict :=
  fun st => (Ok (heap_get (heap st) r), st).

(** [d.copy()]: a fresh object with the same items. *)
Definition dict_copy (r : ref) : M ref :=
  d <- deref r ;; new_dict d.

(** [d[k] = v] through a name. *)
Definition dict_setitem (r : ref) (k : string) (v : R) : M unit :=
  fun st =>
    (Ok tt, set_heap (heap_set (heap st) r (dict_set (heap_get (heap st) r) k v)) st).

(** A [for] loop whose body may raise. *)
Fixpoint for_each {A : Type} (l : list A) (body : A -> M unit) : M unit :=
  match l with
  | [] => ret tt
  | a :: l' => body a ;; for_each l' body
  end.

(** ** main.py: [objective_function] *)
Section Objective.
Context (pm : Pymunk).

Definition objective_function (params : list R)
    (search_space_names : list string) (fixed_params : ref)
    (ground_truth_traj : list Vec) (steps : Z) (impulses : schedule)
  : M npfloat :=
  (* global call_count; call_count += 1 *)
  n <- get_call_count ;;
  set_call_count (n + 1) ;;
  (* current_params = fixed_params.copy() *)
  current_params <- dict_copy fixed_params ;;
  (* for i, name in enumerate(search_space_names):
         current_params[name] = params[i] *)
  for_each (enumerate search_space_names)
    (fun '(i, name) =>
       v <- lift (py_index params i) ;;
       dict_setitem current_params name v) ;;
  (* simulator = Simulator(params=current_params) *)
  d <- deref current_params ;;
  simulator <- lift (Simulator.__init__ pm (Some d)) ;;
  (* sim_trajectory = simulator.run_simulation_for_trajectory(...) *)
  let sim_trajectory :=
    snd (Simulator.run_simulation_for_trajectory pm simulator steps impulses) in
  (* rmse = calculate_rmse(ground_truth_traj, sim_trajectory) *)
  rmse <- lift (calculate_rmse ground_truth_traj sim_trajectory) ;;
  (* print(f"  {current_stage} Guess #{call_count}: ({param_str}) -> RMSE: ...") *)
  items <- deref current_params ;;
  stage <- get_current_stage ;;
  count <- get_call_count ;;
  print (GuessLine stage count items rmse) ;;
  ret rmse.
End Objective.

(** ** The optimizer (skopt) *)

(** [skopt.space.Real(low, high, name=...)]. *)
Record Real : Type := {
  low : R;
  high : R;
  name : string
}.

(** The result object of [gp_minimize]; only [x], the best point, is read. *)
Record OptimizeResult : Type := {
  x : list R
}.

(** [gp_minimize(func, dimensions, n_calls, x0, n_initial_points,
    random_state, verbose)].  It evaluates [func], which counts and
    prints, so it runs in the evaluation monad. *)
Record Skopt : Type := {
  gp_minimize :
    (list R -> M npfloat) -> list Real -> Z -> option (list R) -> Z -> Z ->
    bool -> M OptimizeResult
}.

(** ** main.py: configuration and [run_staged_calibration] *)

Definition GROUND_TRUTH_PARAMS : dict :=
  [("friction", 0.7); ("elasticity", 0.9); ("mass", 12.0)]%string.

Definition EXP_A_IMPULSES : schedule := [(0%Z, (0, 8000))].
Definition EXP_A_STEPS : Z := 300.
Definition EXP_B_IMPULSES : schedule := [(0%Z, (30000, 0))].
Definition EXP_B_STEPS : Z := 300.
Definition EXP_C_IMPULSES : schedule :=
  [(0%Z, (8000, 8000)); (300%Z, (25000, 0))].
Definition EXP_C_STEPS : Z := 500.

Section Controller.
Context (pm : Pymunk) (sk : Skopt).

(** Lines 98 to 168 of [main.py], up to and including [final_params];
    the report and the plot that follow read [final_params] and do not
    change it.  [initial_guess] and [best_params] are locals that are
    never handed to another function, so they are kept as values; the
    [fixed_params] dicts are handed to the objective and live in the
    store. *)
Definition run_staged_calibration : M dict :=
  let initial_guess : dict :=
    [("friction", 0.5); ("elasticity", 0.5); ("mass", 15.0)]%string in
  let best_params := initial_guess in
  (* === STAGE A === *)
  set_current_stage "Stage A (Bounce)" ;;
  set_call_count 0 ;;
  stage <- get_current_stage ;;
  print (Header stage "Isolating Elasticity and Mass") ;;
  sim_a <- lift (Simulator.__init__ pm (Some GROUND_TRUTH_PARAMS)) ;;
  let traj_a :=
    snd (Simulator.run_simulation_for_trajectory pm sim_a EXP_A_STEPS EXP_A_IMPULSES) in
  let search_space_a :=
    [ {| low := 0.1; high := 1.0; name := "elasticity" |};
      {| low := 5.0; high := 25.0; name := "mass" |} ] in
  friction0 <- lift (dict_getitem best_params "friction") ;;
  fixed_a <- new_dict [("friction"%string, friction0)] ;;
  let obj_a := fun params =>
    objective_function pm params ["elasticity"; "mass"]%string fixed_a
      traj_a EXP_A_STEPS EXP_A_IMPULSES in
  result_a <- gp_minimize sk obj_a search_space_a 50 None 25 42 false ;;
  xa0 <- lift (py_index (x result_a) 0) ;;
  let best_params := dict_set best_params "elasticity" xa0 in
  xa1 <- lift (py_index (x result_a) 1) ;;
  let best_params := dict_set best_params "mass" xa1 in
  e <- lift (dict_getitem best_params "elasticity") ;;
  m <- lift (dict_getitem best_params "mass") ;;
  print (StageALine e m) ;;
  (* === STAGE B === *)
  set_current_stage "Stage B (Slide)" ;;
  set_call_count 0 ;;
  stage <- get_current_stage ;;
  print (Header stage "Isolating Friction") ;;
  sim_b <- lift (Simulator.__init__ pm (Some GROUND_TRUTH_PARAMS)) ;;
  let traj_b :=
    snd (Simulator.run_simulation_for_trajectory pm sim_b EXP_B_STEPS EXP_B_IMPULSES) in
  let search_space_b := [ {| low := 0.1; high := 1.0; name := "friction" |} ] in
  e <- lift (dict_getitem best_params "elasticity") ;;
  m <- lift (dict_getitem best_params "mass") ;;
  fixed_b <- new_dict [("elasticity"%string, e); ("mass"%string, m)] ;;
  let obj_b := fun params =>
    objective_function pm params ["friction"]%string fixed_b
      traj_b EXP_B_STEPS EXP_B_IMPULSES in
  result_b <- gp_minimize sk obj_b search_space_b 30 None 15 42 false ;;
  xb0 <- lift (py_index (x result_b) 0) ;;
  let best_params := dict_set best_params "friction" xb0 in
  f <- lift (dict_getitem best_params "friction") ;;
  print (StageBLine f) ;;
  (* === STAGE C === *)
  set_current_stage "Stage C (Refine)" ;;
  set_call_count 0 ;;
  stage <- get_current_stage ;;
  print (Header stage "Final Refinement of All Parameters") ;;
  sim_c <- lift (Simulator.__init__ pm (Some GROUND_TRUTH_PARAMS)) ;;
  let traj_c :=
    snd (Simulator.run_simulation_for_trajectory pm sim_c EXP_C_STEPS EXP_C_IMPULSES) in
  let search_space_c :=
    [ {| low := 0.1; high := 1.0; name := "friction" |};
      {| low := 0.1; high := 1.0; name := "elasticity" |};
      {| low := 5.0; high := 25.0; name := "mass" |} ] in
  fixed_c <- new_dict [] ;;
  let obj_c := fun params =>
    objective_function pm params ["friction"; "elasticity"; "mass"]%string
      fixed_c traj_c EXP_C_STEPS EXP_C_IMPULSES in
  result_c <- gp_minimize sk obj_c search_space_c 70
                (Some (dict_values best_params)) 35 42 false ;;
  xc0 <- lift (py_index (x result_c) 0) ;;
  xc1 <- lift (py_index (x result_c) 1) ;;
  xc2 <- lift (py_index (x result_c) 2) ;;
  let final_params : dict :=
    [("friction", xc0); ("elasticity", xc1); ("mass", xc2)]%string in
  ret final_params.
End Controller.

(** ** src/optimizer.py: class [BayesianOptimizer]

    The object carries the ground truth, the search space, the scenario
    and its own call counter; [_objective] changes the counter and
    prints.  The state of this module is the object and the output.
    [run_optimization], which prints the banner and hands [_objective]
    and half the call budget, computed in floating point, to
    [gp_minimize], is not part of the model. *)
Module BayesianOptimizer.

Record t : Type := {
  ground_truth_trajectory : list Vec;
  search_space : list Real;
  simulation_steps : Z;
  impulses : schedule;
  objective_call_count : Z
}.

(** The two kinds of line the class prints. *)
Inductive line : Type :=
| Banner
| Guess (count : Z) (f e m : R) (rmse : npfloat).

Record state : Type := {
  self : t;
  out : list line
}.

Definition ST (A : Type) : Type := state -> result A * state.

(** [BayesianOptimizer(ground_truth_trajectory, search_space,
    simulation_steps, impulses)]. *)
Definition __init__ (ground_truth_trajectory : list Vec)
    (search_space : list Real) (simulation_steps : Z) (impulses : schedule)
  : t :=
  {| ground_truth_trajectory := ground_truth_trajectory;
     search_space := search_space;
     simulation_steps := simulation_steps;
     impulses := impulses;
     objective_call_count := 0 |}.

Definition count_call (st : state) : state :=
  {| self := {| ground_truth_trajectory := ground_truth_trajectory (self st);
                search_space := search_space (self st);
                simulation_steps := simulation_steps (self st);
                impulses := impulses (self st);
                objective_call_count := objective_call_count (self st) + 1 |};
     out := out st |}.

Definition print (l : line) (st : state) : state :=
  {| self := self st; out := out st ++ [l] |}.

Section WithEngine.
Context (pm : Pymunk).

(** [_objective]:
<<
self.objective_call_count += 1
sim_params = {'friction': params[0], 'elasticity': params[1], 'mass': params[2]}
simulator = Simulator(params=sim_params)
sim_trajectory = simulator.run_simulation_for_trajectory(
    steps=self.simulation_steps, impulses=self.impulses)
rmse = self._calculate_rmse(self.ground_truth_trajectory, sim_trajectory)
print(f"  Guess #{self.objective_call_count}: (f=..., e=..., m=...) -> RMSE: ...")
return rmse
>> *)
Definition _objective (params : list R) : ST npfloat :=
  fun st =>
    let st := count_call st in
    match py_index params 0 with
    | Raise e => (Raise e, st)
    | Ok p0 =>
    match py_index params 1 with
    | Raise e => (Raise e, st)
    | Ok p1 =>
    match py_index params 2 with
    | Raise e => (Raise e, st)
    | Ok p2 =>
        let sim_params : dict :=
          [("friction", p0); ("elasticity", p1); ("mass", p2)]%string in
        match Simulator.__init__ pm (Some sim_params) with
        | Raise e => (Raise e, st)
        | Ok simulator =>
            let sim_trajectory :=
              snd (Simulator.run_simulation_for_trajectory pm simulator
                     (simulation_steps (self st)) (impulses (self st))) in
            match _calculate_rmse (ground_truth_trajectory (self st))
                    sim_trajectory with
            | Raise e => (Raise e, st)
            | Ok rmse =>
                (Ok rmse,
                 print (Guess (objective_call_count (self st)) p0 p1 p2 rmse) st)
            end
        end
    end end end.

End WithEngine.
End BayesianOptimizer.

(** ** Reference instances of the two interfaces

    Small, concrete engines and a stub optimizer, used to run the code on
    explicit inputs. *)

(** A ballistic engine: one particle under gravity, explicit Euler steps,
    no floor contact. *)
Record Particle : Type := {
  p_pos : Vec;
  p_vel : Vec;
  p_mass : R;
  p_gravity : Vec
}.

Definition ballistic : Pymunk := {|
  Space := Particle;
  moment_for_circle := fun mass inner outer => mass * (inner ^ 2 + outer ^ 2) / 2;
  space_create := fun sc =>
    Ok {| p_pos := body_position (body sc); p_vel := (0, 0);
          p_mass := body_mass (body sc); p_gravity := gravity sc |};
  apply_impulse_at_local_point := fun impulse _ w =>
    {| p_pos := p_pos w;
       p_vel := (fst (p_vel w) + fst impulse / p_mass w,
                 snd (p_vel w) + snd impulse / p_mass w);
       p_mass := p_mass w; p_gravity := p_gravity w |};
  space_step := fun dt w =>
    let v := (fst (p_vel w) + fst (p_gravity w) * dt,
              snd (p_vel w) + snd (p_gravity w) * dt) in
    {| p_pos := (fst (p_pos w) + fst v * dt, snd (p_pos w) + snd v * dt);
       p_vel := v; p_mass := p_mass w; p_gravity := p_gravity w |};
  position := p_pos
|}.

(** A recording engine: its space is the sequence of engine calls made so
    far (as position it reports how many there were). *)
Inductive call : Type :=
| ApplyImpulse (impulse point : Vec)
| Step (dt : R).

Definition recorder : Pymunk := {|
  Space := list call;
  moment_for_circle := fun _ _ _ => 0;
  space_create := fun _ => Ok [];
  apply_impulse_at_local_point := fun impulse point w => w ++ [ApplyImpulse impulse point];
  space_step := fun dt w => w ++ [Step dt];
  position := fun w => (INR (length w), 0)
|}.

(** Replaying a recorded sequence of calls on an engine. *)
Definition replay (pm : Pymunk) (calls : list call) (w : Space pm) : Space pm :=
  fold_left
    (fun w c =>
       match c with
       | ApplyImpulse impulse point => apply_impulse_at_local_point pm impulse point w
       | Step dt => space_step pm dt w
       end)
    calls w.

(** A stub optimizer: one evaluation, at the warm start when there is one
    and at the lower corner of the search space otherwise; that point is
    its answer. *)
Definition corner_stub : Skopt := {|
  gp_minimize := fun func dimensions n_calls x0 n_initial_points random_state verbose =>
    let point := match x0 with Some p => p | None => map low dimensions end in
    func point ;; ret {| x := point |}
|}.

(** An engine that refuses every scene, and an optimizer that raises
    without evaluating anything. *)
Definition refusing : Pymunk := {|
  Space := unit;
  moment_for_circle := fun _ _ _ => 0;
  space_create := fun _ => Raise BackendError;
  apply_impulse_at_local_point := fun _ _ w => w;
  space_step := fun _ w => w;
  position := fun _ => (0, 0)
|}.

Definition failing_stub : Skopt := {|
  gp_minimize := fun _ _ _ _ _ _ _ => raise BackendError
|}.

(** ** Specification vocabulary *)

(** Trailing hold: [t] followed by copies of its last point up to length
    [n] ([t] itself when it is already that long). *)
Definition hold_pad (n : nat) (t : list Vec) : list Vec :=
  t ++ repeat (last t (0, 0)) (n - length t).

(** The simulator after the first [k] iterations of the step loop. *)
Definition state_after (pm : Pymunk) (impulses : schedule) (w : Space pm)
    (k : nat) : Space pm :=
  fold_left (Simulator.advance pm impulses) (map Z.of_nat (seq 0 k)) w.

(** The impulse vectors scheduled for step [s], in schedule order. *)
Definition scheduled_at (s : Z) (impulses : schedule) : list Vec :=
  map snd (filter (fun e => Z.eqb s (fst e)) impulses).

(** An impulse at the body's centre, as a step of a fold. *)
Definition apply_at_centre (pm : Pymunk) (w : Space pm) (impulse : Vec)
  : Space pm :=
  apply_impulse_at_local_point pm impulse (0, 0) w.

(** The engine calls of one iteration of the step loop at step [s]. *)
Definition calls_of_step (impulses : schedule) (s : Z) : list call :=
  map (fun v => ApplyImpulse v (0, 0)) (scheduled_at s impulses)
  ++ [Step (1 / 60.0)].

(** A schedule entry whose index is a step of a run of [steps] steps. *)
Definition in_run (steps : Z) (e : Z * Vec) : bool :=
  (0 <=? fst e)%Z && (fst e <? steps)%Z.

(** The assignments [current_params[name] = params[i]] of the objective,
    from index [i] on, as a function of the dict: the dict as the loop
    leaves it, and whether the loop ran to its end or stopped at a
    missing [params[i]]. *)
Fixpoint assign_free (i : nat) (names : list string) (params : list R)
    (d : dict) : result unit * dict :=
  match names with
  | [] => (Ok tt, d)
  | name :: names' =>
      match nth_error params i with
      | Some v => assign_free (S i) names' params (dict_set d name v)
      | None => (Raise IndexError, d)
      end
  end.

(** The value of one objective evaluation as a function of its arguments
    and of the items of the fixed-parameter dict. *)
Definition objective_value (pm : Pymunk) (params : list R)
    (names : list string) (fixed_items : dict) (ground_truth_traj : list Vec)
    (steps : Z) (impulses : schedule) : result npfloat :=
  match assign_free 0 names params fixed_items with
  | (Raise e, _) => Raise e
  | (Ok _, merged) =>
      match Simulator.__init__ pm (Some merged) with
      | Raise e => Raise e
      | Ok simulator =>
          calculate_rmse ground_truth_traj
            (snd (Simulator.run_simulation_for_trajectory pm simulator steps impulses))
      end
  end.

(** The state after one objective evaluation: the counter is one higher,
    the store has one more dict (the merged parameters), and a completed
    evaluation has printed its line. *)
Definition after_evaluation (st : pystate) (merged : dict)
    (value : result npfloat) : pystate :=
  {| call_count := call_count st + 1;
     current_stage := current_stage st;
     stdout := match value with
               | Ok rmse => stdout st ++ [GuessLine (current_stage st)
                                            (call_count st + 1) merged rmse]
               | Raise _ => stdout st
               end;
     heap := heap st ++ [merged] |}.

(** The state in which a stage starts: label set, counter reset, header
    printed. *)
Definition enter_stage (label what : string) (st : pystate) : pystate :=
  {| call_count := 0; current_stage := label;
     stdout := stdout st ++ [Header label what]; heap := heap st |}.

(** The state after a line was printed. *)
Definition printed (l : line) (st : pystate) : pystate :=
  {| call_count := call_count st; current_stage := current_stage st;
     stdout := stdout st ++ [l]; heap := heap st |}.

(** The state after a dict display was evaluated; the new dict's address
    is the old size of the store. *)
Definition with_dict (d : dict) (st : pystate) : pystate :=
  set_heap (heap st ++ [d]) st.

(** [partial(objective_function, search_space_names=..., ...)]. *)
Definition partial_objective (pm : Pymunk) (names : list string)
    (fixed_params : ref) (ground_truth_traj : list Vec) (steps : Z)
    (impulses : schedule) : list R -> M npfloat :=
  fun params =>
    objective_function pm params names fixed_params ground_truth_traj steps impulses.

Definition search_space_a : list Real :=
  [ {| low := 0.1; high := 1.0; name := "elasticity" |};
    {| low := 5.0; high := 25.0; name := "mass" |} ].

Definition search_space_b : list Real :=
  [ {| low := 0.1; high := 1.0; name := "friction" |} ].

Definition search_space_c : list Real :=
  [ {| low := 0.1; high := 1.0; name := "friction" |};
    {| low := 0.1; high := 1.0; name := "elasticity" |};
    {| low := 5.0; high := 25.0; name := "mass" |} ].



(** A schedule with every step index counted from step [n] of another
    run. *)
Definition shift_schedule (n : Z) (impulses : schedule) : schedule :=
  map (fun e => ((fst e - n)%Z, snd e)) impulses.

(** The state after an objective was evaluated at each of [points] in
    turn, whatever the evaluations returned. *)
Definition evaluate_all {S A : Type} (f : list R -> S -> result A * S)
    (points : list (list R)) (st : S) : S :=
  fold_left (fun st p => snd (f p st)) points st.

(** * Properties *)

(** ** The comparators *)

Lemma np_sub_same_length (t1 t2 : ndarray) :
  length t1 = length t2 -> np_sub t1 t2 = Ok (zip_sub t1 t2).
Proof.
  intros H. unfold np_sub. now rewrite H, Nat.eqb_refl.
Qed.

Lemma vsquare_vsub_sym (p q : Vec) : vsquare (vsub p q) = vsquare (vsub q p).
Proof.
  unfold vsquare, vsub; simpl. f_equal; ring.
Qed.

Lemma square_zip_sub_sym (t1 t2 : ndarray) :
  np_square (zip_sub t1 t2) = np_square (zip_sub t2 t1).
Proof.
  revert t2; induction t1 as [|p t1 IH]; intros [|q t2]; simpl; trivial.
  now rewrite vsquare_vsub_sym, IH.
Qed.

Lemma square_stretch_sym (p : Vec) (t : ndarray) :
  np_square (map (fun q => vsub p q) t) = np_square (map (fun q => vsub q p) t).
Proof.
  unfold np_square. rewrite !map_map. apply map_ext. intros q.
  apply vsquare_vsub_sym.
Qed.

Lemma calculate_rmse_sym (t1 t2 : list Vec) :
  calculate_rmse t1 t2 = calculate_rmse t2 t1.
Proof.
  unfold calculate_rmse, np_sub.
  rewrite (Nat.eqb_sym (length t2) (length t1)).
  destruct (Nat.eqb (length t1) (length t2)) eqn:E.
  - now rewrite square_zip_sub_sym.
  - destruct t1 as [|p [|p' t1]], t2 as [|q [|q' t2]];
      try discriminate E; trivial.
    + now rewrite (square_stretch_sym p (q :: q' :: t2)).
    + now rewrite <- (square_stretch_sym q (p :: p' :: t1)).
Qed.

Lemma last_row_last (t : ndarray) (d : Vec) :
  t <> [] -> last_row t = Ok (last t d).
Proof.
  induction t as [|p t IH]; intros H; [contradiction|].
  destruct t as [|q t]; [reflexivity|].
  change (last_row (q :: t) = Ok (last (q :: t) d)).
  apply IH. discriminate.
Qed.

Lemma hold_pad_length (n : nat) (t : list Vec) :
  (length t <= n)%nat -> length (hold_pad n t) = n.
Proof.
  intros H. unfold hold_pad. rewrite length_app, repeat_length. lia.
Qed.

Lemma hold_pad_long (n : nat) (t : list Vec) :
  (n <= length t)%nat -> hold_pad n t = t.
Proof.
  intros H. unfold hold_pad.
  replace (n - length t)%nat with 0%nat by lia. apply app_nil_r.
Qed.

(** With a non-empty shorter side, the padding comparator is the plain
    one on the two held trajectories. *)
Lemma _calculate_rmse_hold (a b : list Vec) :
  a <> [] -> b <> [] ->
  _calculate_rmse a b =
  calculate_rmse (hold_pad (length b) a) (hold_pad (length a) b).
Proof.
  intros Ha Hb. unfold _calculate_rmse.
  destruct (Nat.ltb (length b) (length a)) eqn:E1.
  - apply Nat.ltb_lt in E1.
    rewrite (last_row_last b (0, 0) Hb).
    rewrite (hold_pad_long (length b) a) by lia. reflexivity.
  - destruct (Nat.ltb (length a) (length b)) eqn:E2.
    + apply Nat.ltb_lt in E2.
      rewrite (last_row_last a (0, 0) Ha).
      rewrite (hold_pad_long (length a) b) by lia. reflexivity.
    + apply Nat.ltb_ge in E1, E2.
      rewrite (hold_pad_long (length b) a), (hold_pad_long (length a) b) by lia.
      reflexivity.
Qed.

Lemma _calculate_rmse_same_length (t1 t2 : list Vec) :
  length t1 = length t2 -> _calculate_rmse t1 t2 = calculate_rmse t1 t2.
Proof.
  intros H. unfold _calculate_rmse. rewrite H, Nat.ltb_irrefl. reflexivity.
Qed.

Lemma _calculate_rmse_sym (a b : list Vec) :
  _calculate_rmse a b = _calculate_rmse b a.
Proof.
  unfold _calculate_rmse.
  destruct (Nat.ltb (length b) (length a)) eqn:E1;
    destruct (Nat.ltb (length a) (length b)) eqn:E2.
  - apply Nat.ltb_lt in E1, E2. lia.
  - destruct (last_row b); trivial. apply calculate_rmse_sym.
  - destruct (last_row a); trivial. apply calculate_rmse_sym.
  - apply calculate_rmse_sym.
Qed.

Lemma ravel_length (d : ndarray) : length (ravel d) = (2 * length d)%nat.
Proof.
  induction d as [|p d IH]; [reflexivity|].
  change (ravel (p :: d)) with (fst p :: snd p :: ravel d).
  simpl length. lia.
Qed.

Lemma np_mean_nonempty (d : ndarray) :
  d <> [] -> np_mean d = Num (Rsum (ravel d) / INR (2 * length d)).
Proof.
  intros H. unfold np_mean. rewrite <- ravel_length.
  destruct d as [|p d]; [contradiction|]. reflexivity.
Qed.

Lemma zip_sub_length (t1 t2 : ndarray) :
  length t1 = length t2 -> length (zip_sub t1 t2) = length t1.
Proof.
  revert t2; induction t1 as [|p t1 IH]; intros [|q t2] H; simpl in *;
    try discriminate; trivial.
  f_equal. apply IH. lia.
Qed.

(** The value of the plain comparator on two non-empty trajectories of
    one length: the square root of the sum of all squared coordinate
    differences over the number of coordinates. *)
Lemma calculate_rmse_value (t1 t2 : list Vec) :
  t1 <> [] -> length t1 = length t2 ->
  calculate_rmse t1 t2 =
  Ok (Num (sqrt (Rsum (ravel (np_square (zip_sub t1 t2)))
                 / INR (2 * length t1)))).
Proof.
  intros Hne Hlen. unfold calculate_rmse.
  rewrite (np_sub_same_length _ _ Hlen).
  rewrite np_mean_nonempty.
  - unfold np_square at 2. rewrite length_map, zip_sub_length by assumption.
    reflexivity.
  - intros E. apply (f_equal (@length Vec)) in E.
    unfold np_square in E. rewrite length_map, zip_sub_length in E by assumption.
    destruct t1; [contradiction | discriminate].
Qed.

Lemma Rsum_squares_nonneg (d : ndarray) : 0 <= Rsum (ravel (np_square d)).
Proof.
  induction d as [|p d IH]; simpl; [lra|].
  change (0 <= fst p ^ 2 + (snd p ^ 2 + Rsum (ravel (np_square d)))).
  pose proof (pow2_ge_0 (fst p)). pose proof (pow2_ge_0 (snd p)). lra.
Qed.

Lemma Rsum_squares_zero (d : ndarray) :
  Rsum (ravel (np_square d)) = 0 -> Forall (fun p => p = (0, 0)) d.
Proof.
  induction d as [|p d IH]; intros H; [constructor|].
  change (fst p ^ 2 + (snd p ^ 2 + Rsum (ravel (np_square d))) = 0) in H.
  pose proof (pow2_ge_0 (fst p)) as H1. pose proof (pow2_ge_0 (snd p)) as H2.
  pose proof (Rsum_squares_nonneg d) as H3.
  assert (E1 : fst p ^ 2 = 0) by lra. assert (E2 : snd p ^ 2 = 0) by lra.
  assert (E3 : Rsum (ravel (np_square d)) = 0) by lra.
  constructor; [|auto].
  destruct p as [px py]; simpl in *.
  f_equal; nra.
Qed.

Lemma Rsum_squares_same (a : list Vec) :
  Rsum (ravel (np_square (zip_sub a a))) = 0.
Proof.
  induction a as [|p a IH]; [reflexivity|].
  change (fst (vsub p p) ^ 2 + (snd (vsub p p) ^ 2
          + Rsum (ravel (np_square (zip_sub a a)))) = 0).
  rewrite IH. unfold vsub; simpl. ring.
Qed.

Lemma zip_sub_zero (a b : list Vec) :
  length a = length b ->
  Forall (fun p => p = (0, 0)) (zip_sub a b) -> a = b.
Proof.
  revert b; induction a as [|p a IH]; intros [|q b] Hlen H; simpl in *;
    try discriminate; trivial.
  inversion H as [|? ? Hp Hrest]; subst.
  f_equal.
  - destruct p as [px py], q as [qx qy]. unfold vsub in Hp; simpl in Hp.
    injection Hp as Hx Hy. f_equal; lra.
  - apply IH; [lia | assumption].
Qed.

Lemma INR_double_pos (a : list Vec) : a <> [] -> 0 < INR (2 * length a).
Proof.
  intros H. apply lt_0_INR. destruct a; [contradiction | simpl; lia].
Qed.

Lemma calculate_rmse_self (a : list Vec) :
  a <> [] -> calculate_rmse a a = Ok (Num 0).
Proof.
  intros H. rewrite calculate_rmse_value by auto.
  rewrite Rsum_squares_same. unfold Rdiv. rewrite Rmult_0_l, sqrt_0.
  reflexivity.
Qed.

Lemma calculate_rmse_nonneg (a b : list Vec) (r : R) :
  calculate_rmse a b = Ok (Num r) -> 0 <= r.
Proof.
  unfold calculate_rmse. destruct (np_sub a b) as [d|e]; [|discriminate].
  unfold np_mean. destruct (ravel (np_square d)); simpl; [discriminate|].
  intros H. injection H as <-. apply sqrt_pos.
Qed.

Lemma calculate_rmse_zero_iff (a b : list Vec) :
  a <> [] -> length a = length b ->
  calculate_rmse a b = Ok (Num 0) <-> a = b.
Proof.
  intros Hne Hlen. split.
  - rewrite calculate_rmse_value by assumption. intros H.
    injection H as H.
    apply zip_sub_zero; [assumption|]. apply Rsum_squares_zero.
    pose proof (INR_double_pos a Hne) as Hpos.
    pose proof (Rsum_squares_nonneg (zip_sub a b)) as Hs.
    apply sqrt_eq_0 in H.
    + unfold Rdiv in H. apply Rmult_integral in H. destruct H as [H|H]; [exact H|].
      exfalso. apply (Rinv_neq_0_compat (INR (2 * length a))); [lra | exact H].
    + apply Rmult_le_pos; [exact Hs|]. apply Rlt_le, Rinv_0_lt_compat, Hpos.
  - intros <-. now apply calculate_rmse_self.
Qed.

Lemma _calculate_rmse_nonneg (a b : list Vec) (r : R) :
  _calculate_rmse a b = Ok (Num r) -> 0 <= r.
Proof.
  unfold _calculate_rmse.
  destruct (Nat.ltb (length b) (length a)).
  - destruct (last_row b) as [row|e]; [|discriminate].
    apply calculate_rmse_nonneg.
  - destruct (Nat.ltb (length a) (length b)).
    + destruct (last_row a) as [row|e]; [|discriminate].
      apply calculate_rmse_nonneg.
    + apply calculate_rmse_nonneg.
Qed.

Lemma hold_pad_lengths_agree (a b : list Vec) :
  length (hold_pad (length b) a) = length (hold_pad (length a) b).
Proof.
  destruct (Nat.le_ge_cases (length a) (length b)) as [H|H].
  - rewrite (hold_pad_length _ a H), (hold_pad_long _ b H). reflexivity.
  - rewrite (hold_pad_long _ a H), (hold_pad_length _ b H). reflexivity.
Qed.

Lemma hold_pad_nonempty (n : nat) (t : list Vec) : t <> [] -> hold_pad n t <> [].
Proof.
  intros H E. unfold hold_pad in E. apply app_eq_nil in E. tauto.
Qed.

Lemma last_firstn (a : list Vec) (k : nat) (d : Vec) :
  (0 < k <= length a)%nat -> last (firstn k a) d = nth (k - 1) a d.
Proof.
  revert k; induction a as [|p a IH]; intros k [H1 H2]; simpl in H2; [lia|].
  destruct k as [|k]; [lia|].
  destruct k as [|k].
  - reflexivity.
  - change (firstn (S (S k)) (p :: a)) with (p :: firstn (S k) a).
    replace (S (S k) - 1)%nat with (S (S k - 1)) by lia.
    change (nth (S (S k - 1)) (p :: a) d) with (nth (S k - 1) a d).
    rewrite <- IH by lia.
    destruct a as [|q a]; [simpl in H2; lia|]. reflexivity.
Qed.

Lemma zip_sub_repeat_l (p : Vec) (t : ndarray) :
  zip_sub (repeat p (length t)) t = map (fun q => vsub p q) t.
Proof.
  induction t as [|q t IH]; simpl; [reflexivity|]. now rewrite IH.
Qed.

Lemma zip_sub_repeat_r (q : Vec) (t : ndarray) :
  zip_sub t (repeat q (length t)) = map (fun p => vsub p q) t.
Proof.
  induction t as [|p t IH]; simpl; [reflexivity|]. now rewrite IH.
Qed.

(** Where the plain comparator stretches a single row, the padding
    comparator holds that row: same differences. *)
Lemma _calculate_rmse_single_l (p q q' : Vec) (t : list Vec) :
  _calculate_rmse [p] (q :: q' :: t) = calculate_rmse [p] (q :: q' :: t).
Proof.
  unfold _calculate_rmse, calculate_rmse.
  change (Nat.ltb (length (q :: q' :: t)) (length [p])) with false.
  change (Nat.ltb (length [p]) (length (q :: q' :: t))) with true.
  cbv beta iota zeta.
  change (last_row [p]) with (Ok p).
  cbv beta iota zeta.
  change (np_vstack [p] (np_tile p (length (q :: q' :: t) - length [p])))
    with (repeat p (length (q :: q' :: t))).
  rewrite np_sub_same_length by apply repeat_length.
  rewrite zip_sub_repeat_l. reflexivity.
Qed.

Lemma _calculate_rmse_single_r (p p' q : Vec) (t : list Vec) :
  _calculate_rmse (p :: p' :: t) [q] = calculate_rmse (p :: p' :: t) [q].
Proof.
  rewrite _calculate_rmse_sym, calculate_rmse_sym.
  apply _calculate_rmse_single_l.
Qed.

(** C10.  On two trajectories of one length the top-level script's
    [calculate_rmse] and the optimizer module's [_calculate_rmse] return
    the same result: the padding variant takes neither padding branch and
    runs the very computation of the plain variant.  More generally,
    whenever the plain variant returns a value at all, the padding
    variant returns that value. *)
Theorem comparators_agree_on_equal_lengths (t1 t2 : list Vec) :
  (length t1 = length t2 ->
   calculate_rmse t1 t2 = _calculate_rmse t1 t2) /\
  (forall v : npfloat,
      calculate_rmse t1 t2 = Ok v -> _calculate_rmse t1 t2 = Ok v).
Proof.
  split.
  - intros H. symmetry. now apply _calculate_rmse_same_length.
  - intros v H.
    destruct (Nat.eqb (length t1) (length t2)) eqn:E.
    + apply Nat.eqb_eq in E. now rewrite _calculate_rmse_same_length.
    + destruct t1 as [|p [|p' t1]], t2 as [|q [|q' t2]];
        try discriminate E;
        try (unfold calculate_rmse, np_sub in H; rewrite E in H;
             discriminate H).
      * now rewrite _calculate_rmse_single_l.
      * now rewrite _calculate_rmse_single_r.
Qed.

Lemma comparators_agree_witness :
  calculate_rmse [(0, 300); (1, 290)] [(0, 300); (2, 280)] =
  _calculate_rmse [(0, 300); (1, 290)] [(0, 300); (2, 280)].
Proof.
  apply (proj1 (comparators_agree_on_equal_lengths
                  [(0, 300); (1, 290)] [(0, 300); (2, 280)])).
  reflexivity.
Defined.

(** C1, as the code has it.  When the two lengths differ and the shorter
    trajectory is not empty, [_calculate_rmse] extends the shorter one
    with copies of its last point to the length of the longer one and
    returns the RMSE of that padded pair, a real number: the square root
    of the sum of all squared coordinate differences over the [2 * len]
    coordinates of the longer trajectory.  It does so whichever argument
    is the shorter.  In particular [rmse(a, a[:k])] for [0 < k < len(a)]
    is [rmse(a, a_padded)], [a_padded] being [a[:k]] followed by
    [len(a) - k] copies of [a[k-1]]. *)
Theorem trailing_hold_padding :
  (forall a b : list Vec,
      b <> [] -> (length b < length a)%nat ->
      let b_padded := b ++ repeat (last b (0, 0)) (length a - length b) in
      length b_padded = length a /\
      _calculate_rmse a b = _calculate_rmse a b_padded /\
      _calculate_rmse b a = _calculate_rmse b_padded a /\
      _calculate_rmse a b =
        Ok (Num (sqrt (Rsum (ravel (np_square (zip_sub a b_padded)))
                       / INR (2 * length a))))) /\
  (forall (a : list Vec) (k : nat),
      (0 < k < length a)%nat ->
      let a_padded := firstn k a ++ repeat (nth (k - 1) a (0, 0)) (length a - k) in
      _calculate_rmse a (firstn k a) = _calculate_rmse a a_padded).
Proof.
  assert (main : forall a b : list Vec,
      b <> [] -> (length b < length a)%nat ->
      length (hold_pad (length a) b) = length a /\
      _calculate_rmse a b = _calculate_rmse a (hold_pad (length a) b) /\
      _calculate_rmse b a = _calculate_rmse (hold_pad (length a) b) a /\
      _calculate_rmse a b =
        Ok (Num (sqrt (Rsum (ravel (np_square (zip_sub a (hold_pad (length a) b))))
                       / INR (2 * length a))))).
  { intros a b Hb Hlt.
    assert (Ha : a <> []) by (destruct a; [simpl in Hlt; lia | discriminate]).
    assert (Hlen : length (hold_pad (length a) b) = length a)
      by (apply hold_pad_length; lia).
    assert (E : _calculate_rmse a b = calculate_rmse a (hold_pad (length a) b)).
    { rewrite (_calculate_rmse_hold a b Ha Hb).
      rewrite (hold_pad_long (length b) a) by lia. reflexivity. }
    split; [exact Hlen|]. split; [|split].
    - rewrite E. symmetry. apply _calculate_rmse_same_length. now rewrite Hlen.
    - rewrite (_calculate_rmse_sym b a), (_calculate_rmse_sym _ a), E.
      symmetry. apply _calculate_rmse_same_length. now rewrite Hlen.
    - rewrite E. apply calculate_rmse_value; [exact Ha | now rewrite Hlen]. }
  split.
  - intros a b Hb Hlt. exact (main a b Hb Hlt).
  - intros a k Hk a_padded.
    assert (Hlenk : length (firstn k a) = k) by (rewrite length_firstn; lia).
    assert (Hne : firstn k a <> []).
    { intros E. rewrite E in Hlenk. simpl in Hlenk. lia. }
    destruct (main a (firstn k a) Hne ltac:(lia)) as (_ & H & _).
    rewrite H. unfold a_padded, hold_pad.
    rewrite Hlenk, (last_firstn a k (0, 0)) by lia. reflexivity.
Qed.

Lemma trailing_hold_padding_witness :
  _calculate_rmse [(0, 0); (3, 4); (6, 8)] [(0, 0); (3, 4)] =
  _calculate_rmse [(0, 0); (3, 4); (6, 8)] [(0, 0); (3, 4); (3, 4)].
Proof.
  exact (proj2 trailing_hold_padding [(0, 0); (3, 4); (6, 8)] 2%nat
           (conj (Nat.lt_0_succ 1) (Nat.lt_succ_diag_r 2))).
Defined.

(** C1 as stated fails when the shorter trajectory is empty: there is no
    last point to repeat, and [t2[-1]] (or [t1[-1]]) raises [IndexError].
    The top-level [calculate_rmse] does not pad at all: on lengths 3 and
    2 the subtraction raises [ValueError]. *)
Lemma padding_fails_on_empty :
  length [(0, 0)] <> length (@nil Vec) /\
  _calculate_rmse [(0, 0)] [] = Raise IndexError /\
  _calculate_rmse [] [(0, 0)] = Raise IndexError /\
  calculate_rmse [(0, 0); (1, 1); (2, 2)] [(0, 0); (1, 1)] = Raise ValueError.
Proof.
  split; [discriminate|]. repeat split.
Qed.

Lemma calculate_rmse_trichotomy (t1 t2 : list Vec) :
  (t1 = [] /\ t2 = [] /\ calculate_rmse t1 t2 = Ok NaN) \/
  (t1 <> [] /\ t2 <> [] /\
   (length t1 = length t2 \/ length t1 = 1%nat \/ length t2 = 1%nat) /\
   exists r, calculate_rmse t1 t2 = Ok (Num r)) \/
  (~ (t1 = [] /\ t2 = []) /\
   ~ (t1 <> [] /\ t2 <> [] /\
      (length t1 = length t2 \/ length t1 = 1%nat \/ length t2 = 1%nat)) /\
   calculate_rmse t1 t2 = Raise ValueError).
Proof.
  destruct t1 as [|p [|p' t1]], t2 as [|q [|q' t2]].
  - left. repeat split.
  - right; right. split; [|split]; [intros [_ H]; discriminate H | tauto | reflexivity].
  - right; right. split; [|split]; [intros [_ H]; discriminate H | tauto | reflexivity].
  - right; right. split; [|split]; [intros [H _]; discriminate H | tauto | reflexivity].
  - right; left. repeat split; try discriminate; [now left | eexists; reflexivity].
  - right; left. repeat split; try discriminate; [right; now left | eexists; reflexivity].
  - right; right. split; [|split]; [intros [H _]; discriminate H | tauto | reflexivity].
  - right; left. repeat split; try discriminate; [right; now right | eexists; reflexivity].
  - destruct (Nat.eqb (length (p :: p' :: t1)) (length (q :: q' :: t2))) eqn:E.
    + right; left. repeat split; try discriminate.
      * left. now apply Nat.eqb_eq.
      * unfold calculate_rmse, np_sub. rewrite E. eexists. reflexivity.
    + right; right. split; [|split].
      * intros [H _]; discriminate H.
      * apply Nat.eqb_neq in E. intros (_ & _ & [H|[H|H]]);
          [contradiction | discriminate H | discriminate H].
      * unfold calculate_rmse, np_sub. rewrite E. reflexivity.
Qed.

Lemma _calculate_rmse_trichotomy (t1 t2 : list Vec) :
  (t1 = [] /\ t2 = [] /\ _calculate_rmse t1 t2 = Ok NaN) \/
  (t1 <> [] /\ t2 <> [] /\
   exists r, _calculate_rmse t1 t2 = Ok (Num r) /\ 0 <= r) \/
  (~ (t1 = [] /\ t2 = []) /\ ~ (t1 <> [] /\ t2 <> []) /\
   _calculate_rmse t1 t2 = Raise IndexError).
Proof.
  destruct t1 as [|p t1], t2 as [|q t2].
  - left. repeat split.
  - right; right. split; [|split]; [intros [_ H]; discriminate H | tauto | reflexivity].
  - right; right. split; [|split]; [intros [H _]; discriminate H | tauto | reflexivity].
  - right; left. split; [discriminate|]. split; [discriminate|].
    rewrite _calculate_rmse_hold by discriminate.
    rewrite calculate_rmse_value.
    + eexists. split; [reflexivity | apply sqrt_pos].
    + apply hold_pad_nonempty. discriminate.
    + apply hold_pad_lengths_agree.
Qed.

(** Whenever the plain comparator returns a value, the padding
    comparator returns that value. *)
Lemma calculate_rmse_refined (t1 t2 : list Vec) (v : npfloat) :
  calculate_rmse t1 t2 = Ok v -> _calculate_rmse t1 t2 = Ok v.
Proof.
  intros H.
  destruct (Nat.eqb (length t1) (length t2)) eqn:E.
  - apply Nat.eqb_eq in E. now rewrite _calculate_rmse_same_length.
  - destruct t1 as [|p [|p' t1]], t2 as [|q [|q' t2]];
      try discriminate E;
      try (unfold calculate_rmse, np_sub in H; rewrite E in H;
           discriminate H).
    + now rewrite _calculate_rmse_single_l.
    + now rewrite _calculate_rmse_single_r.
Qed.

(** C7, as the code has it.  For both comparators: the distance of a
    non-empty trajectory to itself is 0; the outcome, error, number or
    NaN, is the same in both argument orders, and NaN comes back only for
    two empty trajectories; a returned number is never negative; and on
    non-empty trajectories of one length the result is 0 exactly when the
    two are identical.  For [_calculate_rmse] on non-empty trajectories
    of any lengths, the result is 0 exactly when the two are identical
    after trailing-hold padding.  For [calculate_rmse] the result is 0
    exactly when the two are non-empty, have one length or one of them is
    a single point, and are identical after trailing-hold padding. *)
Theorem rmse_metric_like :
  (forall a : list Vec, a <> [] ->
      _calculate_rmse a a = Ok (Num 0) /\ calculate_rmse a a = Ok (Num 0)) /\
  (forall a b : list Vec,
      _calculate_rmse a b = _calculate_rmse b a /\
      calculate_rmse a b = calculate_rmse b a) /\
  (forall (a b : list Vec) (r : R),
      _calculate_rmse a b = Ok (Num r) \/ calculate_rmse a b = Ok (Num r) ->
      0 <= r) /\
  (forall a b : list Vec, a <> [] -> length a = length b ->
      (_calculate_rmse a b = Ok (Num 0) <-> a = b) /\
      (calculate_rmse a b = Ok (Num 0) <-> a = b)) /\
  (forall a b : list Vec, a <> [] -> b <> [] ->
      (_calculate_rmse a b = Ok (Num 0) <->
       hold_pad (length b) a = hold_pad (length a) b)) /\
  (forall a b : list Vec,
      (_calculate_rmse a b = Ok NaN <-> a = [] /\ b = []) /\
      (calculate_rmse a b = Ok NaN <-> a = [] /\ b = [])) /\
  (forall a b : list Vec,
      calculate_rmse a b = Ok (Num 0) <->
      a <> [] /\ b <> [] /\
      (length a = length b \/ length a = 1%nat \/ length b = 1%nat) /\
      hold_pad (length b) a = hold_pad (length a) b).
Proof.
  assert (Hpad : forall a b : list Vec, a <> [] -> b <> [] ->
      (_calculate_rmse a b = Ok (Num 0) <->
       hold_pad (length b) a = hold_pad (length a) b)).
  { intros a b Ha Hb. rewrite (_calculate_rmse_hold a b Ha Hb).
    apply calculate_rmse_zero_iff.
    - now apply hold_pad_nonempty.
    - apply hold_pad_lengths_agree. }
  split; [|split; [|split; [|split; [|split; [|split]]]]].
  - intros a Ha. split.
    + rewrite _calculate_rmse_same_length by reflexivity.
      now apply calculate_rmse_self.
    + now apply calculate_rmse_self.
  - intros a b. split; [apply _calculate_rmse_sym | apply calculate_rmse_sym].
  - intros a b r [H|H].
    + exact (_calculate_rmse_nonneg a b r H).
    + exact (calculate_rmse_nonneg a b r H).
  - intros a b Ha Hlen. split.
    + rewrite _calculate_rmse_same_length by assumption.
      now apply calculate_rmse_zero_iff.
    + now apply calculate_rmse_zero_iff.
  - exact Hpad.
  - intros a b. split.
    + destruct (_calculate_rmse_trichotomy a b)
        as [(H1 & H2 & E) | [(H1 & H2 & r & E & _) | (H1 & H2 & E)]];
        rewrite E.
      * tauto.
      * split; [discriminate | intros [Ha _]; contradiction].
      * split; [discriminate | intros H; contradiction].
    + destruct (calculate_rmse_trichotomy a b)
        as [(H1 & H2 & E) | [(H1 & H2 & H3 & r & E) | (H1 & H2 & E)]];
        rewrite E.
      * tauto.
      * split; [discriminate | intros [Ha _]; contradiction].
      * split; [discriminate | intros H; contradiction].
  - intros a b. split.
    + intros H.
      destruct (calculate_rmse_trichotomy a b)
        as [(_ & _ & E) | [(Ha & Hb & Hs & _) | (_ & _ & E)]];
        try (rewrite E in H; discriminate H).
      split; [exact Ha|]. split; [exact Hb|]. split; [exact Hs|].
      apply (Hpad a b Ha Hb). now apply calculate_rmse_refined.
    + intros (Ha & Hb & Hs & Heq).
      destruct (calculate_rmse_trichotomy a b)
        as [(H1 & _) | [(_ & _ & _ & r & E) | (_ & H2 & _)]].
      * contradiction.
      * pose proof (calculate_rmse_refined a b _ E) as E'.
        apply (Hpad a b Ha Hb) in Heq. rewrite Heq in E'.
        injection E' as <-. exact E.
      * exfalso. apply H2. tauto.
Qed.

Lemma rmse_metric_like_witness :
  _calculate_rmse [(0, 300); (1, 290)] [(0, 300); (1, 290)] = Ok (Num 0) /\
  (_calculate_rmse [(0, 300); (1, 290)] [(0, 300); (2, 280)] = Ok (Num 0) <->
   [(0, 300); (1, 290)] = [(0, 300); (2, 280)]).
Proof.
  destruct rmse_metric_like as (Hself & _ & _ & Hiff & _).
  split.
  - apply (Hself [(0, 300); (1, 290)]). discriminate.
  - apply (Hiff [(0, 300); (1, 290)] [(0, 300); (2, 280)]).
    + discriminate.
    + reflexivity.
Defined.

(** C7 as stated fails twice.  Two different trajectories are at distance
    0 when the longer one only holds the last point of the shorter one
    (by padding in [_calculate_rmse], by broadcasting in
    [calculate_rmse]); and the distance of the empty trajectory to itself
    is NaN, the mean of an empty array, not 0. *)
Lemma rmse_zero_for_distinct_trajectories :
  _calculate_rmse [(1, 1); (1, 1)] [(1, 1)] = Ok (Num 0) /\
  calculate_rmse [(1, 1); (1, 1)] [(1, 1)] = Ok (Num 0) /\
  [(1, 1); (1, 1)] <> [(1, 1)] /\
  _calculate_rmse [] [] = Ok NaN /\
  calculate_rmse [] [] = Ok NaN.
Proof.
  assert (E : calculate_rmse [(1, 1); (1, 1)] [(1, 1); (1, 1)] = Ok (Num 0))
    by (apply calculate_rmse_self; discriminate).
  split; [|split; [|split; [|split]]].
  - rewrite _calculate_rmse_hold by discriminate. exact E.
  - rewrite <- E. reflexivity.
  - discriminate.
  - reflexivity.
  - reflexivity.
Qed.

(** ** The simulator *)

Lemma dict_get_absent (d : dict) (k : string) :
  dict_get d k = None <-> ~ In k (map fst d).
Proof.
  induction d as [|[k' v] d IH]; simpl.
  - tauto.
  - destruct (String.eqb k k') eqn:E.
    + apply String.eqb_eq in E. subst. split; [discriminate | tauto].
    + apply String.eqb_neq in E. rewrite IH. split.
      * intros H [H'|H']; [congruence | tauto].
      * tauto.
Qed.

(** C9.  [Simulator(params)] hands the engine a scene whose body mass,
    shape elasticity and shape friction are the values under the keys
    ["mass"], ["elasticity"] and ["friction"] of [params], unchanged,
    where the key is present, and 10.0, 0.95 and 0.7 where it is absent
    (a key is absent exactly when [get] finds nothing); [params=None]
    gives all three defaults. *)
Theorem constructor_defaults (pm : Pymunk) (params : option dict) :
  let d := match params with None => [] | Some d => d end in
  exists sc : Scene,
    Simulator.__init__ pm params = space_create pm sc /\
    body_mass (body sc) =
      match dict_get d "mass" with Some v => v | None => 10.0 end /\
    circle_elasticity (shape sc) =
      match dict_get d "elasticity" with Some v => v | None => 0.95 end /\
    circle_friction (shape sc) =
      match dict_get d "friction" with Some v => v | None => 0.7 end /\
    (forall k, dict_get d k = None <-> ~ In k (map fst d)) /\
    (params = None ->
     body_mass (body sc) = 10.0 /\ circle_elasticity (shape sc) = 0.95 /\
     circle_friction (shape sc) = 0.7).
Proof.
  intros d. exists (Simulator.scene pm d).
  split; [reflexivity|]. split; [reflexivity|]. split; [reflexivity|].
  split; [reflexivity|]. split; [apply dict_get_absent|].
  intros ->. repeat split.
Qed.

Lemma constructor_defaults_witness :
  exists sc : Scene,
    Simulator.__init__ ballistic None = space_create ballistic sc /\
    body_mass (body sc) = 10.0 /\
    circle_elasticity (shape sc) = 0.95 /\
    circle_friction (shape sc) = 0.7.
Proof.
  destruct (constructor_defaults ballistic None)
    as (sc & H1 & _ & _ & _ & _ & H).
  exists sc. split; [exact H1 | exact (H eq_refl)].
Defined.

(** The constructor has no check of its own on [params] (C3 asks for one
    on the mass): it hands the engine the mass it was given, whatever its
    sign, and it raises exactly when the engine refuses the scene. *)
Lemma constructor_forwards_mass (pm : Pymunk) (d : dict) (m : R) (e : exn) :
  dict_get d "mass" = Some m ->
  body_mass (body (Simulator.scene pm d)) = m /\
  (Simulator.__init__ pm (Some d) = Raise e <->
   space_create pm (Simulator.scene pm d) = Raise e).
Proof.
  intros H. split.
  - unfold Simulator.scene, dict_get_default; simpl. now rewrite H.
  - reflexivity.
Qed.

Section SimulatorProperties.
Context (pm : Pymunk).

Lemma apply_scheduled_filter (s : Z) (impulses : schedule) (w : Space pm) :
  Simulator.apply_scheduled pm s impulses w =
  fold_left (apply_at_centre pm) (scheduled_at s impulses) w.
Proof.
  unfold Simulator.apply_scheduled, scheduled_at.
  revert w; induction impulses as [|[t v] impulses IH]; intros w; simpl.
  - reflexivity.
  - destruct (Z.eqb s t); simpl; apply IH.
Qed.

Lemma state_after_S (impulses : schedule) (w : Space pm) (k : nat) :
  state_after pm impulses w (S k) =
  Simulator.advance pm impulses (state_after pm impulses w k) (Z.of_nat k).
Proof.
  unfold state_after. rewrite seq_S, map_app, fold_left_app. reflexivity.
Qed.

(** The step loop after [k] iterations, with its trajectory so far. *)
Lemma run_prefix (impulses : schedule) (w : Space pm) (k : nat) :
  fold_left
    (fun '(self, trajectory) step =>
       let self := Simulator.advance pm impulses self step in
       (self, trajectory ++ [position pm self]))
    (map Z.of_nat (seq 0 k)) (w, []) =
  (state_after pm impulses w k,
   map (fun i => position pm (state_after pm impulses w (S i))) (seq 0 k)).
Proof.
  induction k as [|k IH]; [reflexivity|].
  rewrite seq_S, map_app, fold_left_app, IH. simpl.
  rewrite <- state_after_S. rewrite map_app. reflexivity.
Qed.

Lemma run_simulation_for_trajectory_eq (w : Space pm) (steps : Z)
    (impulses : schedule) :
  Simulator.run_simulation_for_trajectory pm w steps impulses =
  (state_after pm impulses w (Z.to_nat steps),
   map (fun i => position pm (state_after pm impulses w (S i)))
       (seq 0 (Z.to_nat steps))).
Proof.
  unfold Simulator.run_simulation_for_trajectory, range. apply run_prefix.
Qed.

Lemma state_after_ext (imp imp' : schedule) (w : Space pm) (k : nat) :
  (forall s : nat, (s < k)%nat ->
      scheduled_at (Z.of_nat s) imp = scheduled_at (Z.of_nat s) imp') ->
  state_after pm imp w k = state_after pm imp' w k.
Proof.
  induction k as [|k IH]; intros H; [reflexivity|].
  rewrite !state_after_S. unfold Simulator.advance.
  rewrite !apply_scheduled_filter, IH, (H k) by auto with arith.
  reflexivity.
Qed.
End SimulatorProperties.

Lemma filter_disjoint_union {A : Type} (p q : A -> bool) (l : list A) :
  (forall a, p a = true -> q a = true -> False) ->
  Permutation (filter (fun a => p a || q a) l) (filter p l ++ filter q l).
Proof.
  intros Hdis. induction l as [|a l IH]; simpl; [constructor|].
  destruct (p a) eqn:Ep, (q a) eqn:Eq; simpl.
  - exfalso. eauto.
  - now constructor.
  - rewrite IH. apply Permutation_middle.
  - exact IH.
Qed.

Lemma in_run_spec (steps : Z) (e : Z * Vec) :
  in_run steps e = true <-> (0 <= fst e < steps)%Z.
Proof.
  unfold in_run. rewrite andb_true_iff, Z.leb_le, Z.ltb_lt. tauto.
Qed.

Lemma applied_entries_prefix (impulses : schedule) (k : nat) :
  Permutation
    (flat_map (fun s => filter (fun e => Z.eqb s (fst e)) impulses)
              (map Z.of_nat (seq 0 k)))
    (filter (in_run (Z.of_nat k)) impulses).
Proof.
  induction k as [|k IH].
  - simpl. rewrite (filter_ext (in_run 0) (fun _ => false)).
    + clear. induction impulses; simpl; auto.
    + intros e. destruct (in_run 0 e) eqn:E; trivial.
      apply in_run_spec in E. lia.
  - rewrite seq_S, map_app, flat_map_app. simpl. rewrite app_nil_r, IH.
    rewrite (filter_ext (in_run (Z.of_nat (S k)))
               (fun e => in_run (Z.of_nat k) e || Z.eqb (Z.of_nat k) (fst e))).
    + symmetry. apply filter_disjoint_union.
      intros e H1 H2. apply in_run_spec in H1. apply Z.eqb_eq in H2. lia.
    + intros e. apply eq_true_iff_eq.
      rewrite orb_true_iff, !in_run_spec, Z.eqb_eq. lia.
Qed.

Lemma scheduled_at_swap (l1 l2 : schedule) (e1 e2 : Z * Vec) (s : Z) :
  fst e1 <> fst e2 ->
  scheduled_at s (l1 ++ e1 :: e2 :: l2) = scheduled_at s (l1 ++ e2 :: e1 :: l2).
Proof.
  intros H. unfold scheduled_at. rewrite !filter_app. simpl.
  destruct (Z.eqb s (fst e1)) eqn:E1, (Z.eqb s (fst e2)) eqn:E2; trivial.
  apply Z.eqb_eq in E1, E2. congruence.
Qed.

Lemma recorder_apply (l : list Vec) (w : list call) :
  fold_left (apply_at_centre recorder) l w =
  w ++ map (fun v => ApplyImpulse v (0, 0)) l.
Proof.
  revert w; induction l as [|v l IH]; intros w; simpl.
  - now rewrite app_nil_r.
  - rewrite IH. unfold apply_at_centre; simpl. now rewrite <- app_assoc.
Qed.

Lemma recorder_state_after (impulses : schedule) (k : nat) :
  state_after recorder impulses [] k =
  flat_map (calls_of_step impulses) (map Z.of_nat (seq 0 k)).
Proof.
  induction k as [|k IH]; [reflexivity|].
  rewrite state_after_S, seq_S, map_app, flat_map_app, <- IH.
  unfold Simulator.advance. rewrite apply_scheduled_filter, recorder_apply.
  simpl. unfold calls_of_step. now rewrite app_nil_r, app_assoc.
Qed.

Section Replay.
Context (pm : Pymunk).

Lemma replay_app (c1 c2 : list call) (w : Space pm) :
  replay pm (c1 ++ c2) w = replay pm c2 (replay pm c1 w).
Proof. unfold replay. apply fold_left_app. Qed.

Lemma replay_impulses (l : list Vec) (w : Space pm) :
  replay pm (map (fun v => ApplyImpulse v (0, 0)) l) w =
  fold_left (apply_at_centre pm) l w.
Proof.
  revert w; induction l as [|v l IH]; intros w; [reflexivity|].
  simpl. apply IH.
Qed.

Lemma replay_state_after (impulses : schedule) (w : Space pm) (k : nat) :
  replay pm (state_after recorder impulses [] k) w =
  state_after pm impulses w k.
Proof.
  induction k as [|k IH]; [reflexivity|].
  rewrite recorder_state_after, seq_S, map_app, flat_map_app,
    <- recorder_state_after, replay_app, IH.
  simpl. rewrite app_nil_r. unfold calls_of_step.
  rewrite replay_app, replay_impulses, state_after_S.
  unfold Simulator.advance. now rewrite apply_scheduled_filter.
Qed.
End Replay.

(** C6.  For a positive step count, the returned trajectory has exactly
    [steps] entries; entry [k] is the body position read right after the
    advance of step [k], that is after the impulses of step [k] were
    applied to the state left by the first [k] iterations and the space
    was stepped once; so the first entry already follows the first
    advance, and the starting position is not recorded.  The simulator
    is left in the state after [steps] iterations. *)
Theorem trajectory_records_each_step (pm : Pymunk) (w : Space pm)
    (steps : Z) (impulses : schedule) :
  (0 < steps)%Z ->
  let run := Simulator.run_simulation_for_trajectory pm w steps impulses in
  Z.of_nat (length (snd run)) = steps /\
  (forall k : nat, (Z.of_nat k < steps)%Z ->
      nth_error (snd run) k =
      Some (position pm
              (space_step pm (1 / 60.0)
                 (Simulator.apply_scheduled pm (Z.of_nat k) impulses
                    (state_after pm impulses w k))))) /\
  nth_error (snd run) 0 =
    Some (position pm
            (space_step pm (1 / 60.0)
               (Simulator.apply_scheduled pm 0 impulses w))) /\
  fst run = state_after pm impulses w (Z.to_nat steps) /\
  state_after pm impulses w 0 = w /\
  (forall k : nat,
      state_after pm impulses w (S k) =
      space_step pm (1 / 60.0)
        (Simulator.apply_scheduled pm (Z.of_nat k) impulses
           (state_after pm impulses w k))).
Proof.
  intros Hpos run. unfold run. rewrite run_simulation_for_trajectory_eq. simpl.
  assert (Hnth : forall k : nat, (Z.of_nat k < steps)%Z ->
      nth_error
        (map (fun i => position pm (state_after pm impulses w (S i)))
             (seq 0 (Z.to_nat steps))) k =
      Some (position pm
              (space_step pm (1 / 60.0)
                 (Simulator.apply_scheduled pm (Z.of_nat k) impulses
                    (state_after pm impulses w k))))).
  { intros k Hk.
    rewrite (nth_error_map (fun i => position pm (state_after pm impulses w (S i)))).
    rewrite nth_error_seq.
    destruct (Nat.ltb_spec k (Z.to_nat steps)) as [_|Hge]; [|lia].
    simpl. rewrite state_after_S. reflexivity. }
  split; [rewrite length_map, length_seq; lia|].
  split; [exact Hnth|].
  split; [exact (Hnth 0%nat Hpos)|].
  split; [reflexivity|]. split; [reflexivity|].
  intros k. apply state_after_S.
Qed.

Lemma trajectory_records_each_step_witness :
  Z.of_nat
    (length
       (snd (Simulator.run_simulation_for_trajectory ballistic
               {| p_pos := (0, 300); p_vel := (0, 0); p_mass := 10;
                  p_gravity := (0, -1000) |}
               3 [(0%Z, (0, 8000))]))) = 3%Z.
Proof.
  exact (proj1 (trajectory_records_each_step ballistic
                  {| p_pos := (0, 300); p_vel := (0, 0); p_mass := 10;
                     p_gravity := (0, -1000) |}
                  3 [(0%Z, (0, 8000))] eq_refl)).
Defined.

(** C5.  In every run, iteration [k] of the step loop applies, at the
    body's centre and before its advance, exactly the impulses of the
    schedule entries whose index is [k], all of them and in schedule
    order.  The engine calls of the whole run are therefore, step by
    step, the impulses scheduled for the step followed by one advance
    (on every engine: replaying them gives the final state); over the
    run the applied entries are, with multiplicity, the entries whose
    index [s] satisfies [0 <= s < steps], each applied once.  Two
    schedules with the same entries at every step of the run give the
    same run; in particular exchanging two neighbouring entries with
    different step indices changes nothing. *)
Theorem impulses_applied_once_at_their_step (pm : Pymunk) (w : Space pm)
    (steps : Z) (impulses : schedule) :
  let run := Simulator.run_simulation_for_trajectory pm w steps impulses in
  let calls :=
    fst (Simulator.run_simulation_for_trajectory recorder [] steps impulses) in
  (forall k : nat,
      state_after pm impulses w (S k) =
      space_step pm (1 / 60.0)
        (fold_left (apply_at_centre pm) (scheduled_at (Z.of_nat k) impulses)
           (state_after pm impulses w k))) /\
  run = (state_after pm impulses w (Z.to_nat steps),
         map (fun i => position pm (state_after pm impulses w (S i)))
             (seq 0 (Z.to_nat steps))) /\
  calls = flat_map (calls_of_step impulses) (range steps) /\
  fst run = replay pm calls w /\
  Permutation
    (flat_map (fun s => filter (fun e => Z.eqb s (fst e)) impulses) (range steps))
    (filter (in_run steps) impulses) /\
  (forall impulses' : schedule,
      (forall s : Z, (0 <= s < steps)%Z ->
          scheduled_at s impulses = scheduled_at s impulses') ->
      run = Simulator.run_simulation_for_trajectory pm w steps impulses') /\
  (forall (l1 l2 : schedule) (e1 e2 : Z * Vec),
      impulses = l1 ++ e1 :: e2 :: l2 -> fst e1 <> fst e2 ->
      run = Simulator.run_simulation_for_trajectory pm w steps
              (l1 ++ e2 :: e1 :: l2)).
Proof.
  intros run calls.
  assert (Hext : forall impulses' : schedule,
      (forall s : Z, (0 <= s < steps)%Z ->
          scheduled_at s impulses = scheduled_at s impulses') ->
      run = Simulator.run_simulation_for_trajectory pm w steps impulses').
  { intros impulses' H. unfold run.
    rewrite !run_simulation_for_trajectory_eq. f_equal.
    - apply state_after_ext. intros s Hs. apply H. lia.
    - apply map_ext_in. intros i Hi. apply in_seq in Hi. f_equal.
      apply state_after_ext. intros s Hs. apply H. lia. }
  split.
  { intros k. rewrite state_after_S. unfold Simulator.advance.
    now rewrite apply_scheduled_filter. }
  split; [apply run_simulation_for_trajectory_eq|].
  split.
  { unfold calls. rewrite run_simulation_for_trajectory_eq. simpl.
    apply recorder_state_after. }
  split.
  { unfold calls, run. rewrite !run_simulation_for_trajectory_eq. simpl.
    symmetry. apply replay_state_after. }
  split.
  { unfold range. rewrite applied_entries_prefix.
    rewrite (filter_ext (in_run (Z.of_nat (Z.to_nat steps))) (in_run steps));
      [reflexivity|].
    intros e. apply eq_true_iff_eq. rewrite !in_run_spec. lia. }
  split; [exact Hext|].
  intros l1 l2 e1 e2 -> Hne. apply Hext. intros s _.
  now apply scheduled_at_swap.
Qed.

Lemma impulses_applied_once_witness :
  Simulator.run_simulation_for_trajectory ballistic
    {| p_pos := (0, 300); p_vel := (0, 0); p_mass := 10;
       p_gravity := (0, -1000) |}
    3 [(0%Z, (0, 8000)); (2%Z, (500, 0)); (0%Z, (100, 0))] =
  Simulator.run_simulation_for_trajectory ballistic
    {| p_pos := (0, 300); p_vel := (0, 0); p_mass := 10;
       p_gravity := (0, -1000) |}
    3 [(2%Z, (500, 0)); (0%Z, (0, 8000)); (0%Z, (100, 0))].
Proof.
  destruct (impulses_applied_once_at_their_step ballistic
              {| p_pos := (0, 300); p_vel := (0, 0); p_mass := 10;
                 p_gravity := (0, -1000) |}
              3 [(0%Z, (0, 8000)); (2%Z, (500, 0)); (0%Z, (100, 0))])
    as (_ & _ & _ & _ & _ & _ & Hswap).
  apply (Hswap [] [(0%Z, (100, 0))] (0%Z, (0, 8000)) (2%Z, (500, 0))).
  - reflexivity.
  - discriminate.
Defined.

(** ** The store *)

Lemma heap_set_length (h : list dict) (r : ref) (d : dict) :
  length (heap_set h r d) = length h.
Proof.
  revert r; induction h as [|d' h IH]; intros [|r]; simpl; auto.
Qed.

Lemma heap_get_set_same (h : list dict) (r : ref) (d : dict) :
  (r < length h)%nat -> heap_get (heap_set h r d) r = d.
Proof.
  unfold heap_get.
  revert r; induction h as [|d' h IH]; intros [|r] H; simpl in *; try lia; trivial.
  apply IH. lia.
Qed.

Lemma heap_get_set_other (h : list dict) (r r' : ref) (d : dict) :
  r <> r' -> heap_get (heap_set h r d) r' = heap_get h r'.
Proof.
  unfold heap_get.
  revert r r'; induction h as [|d' h IH]; intros [|r] [|r'] H; simpl; trivial.
  - congruence.
  - apply IH. congruence.
Qed.

Lemma heap_set_set (h : list dict) (r : ref) (d d' : dict) :
  heap_set (heap_set h r d) r d' = heap_set h r d'.
Proof.
  revert r; induction h as [|d0 h IH]; intros [|r]; simpl; trivial.
  now rewrite IH.
Qed.

Lemma heap_set_get (h : list dict) (r : ref) :
  heap_set h r (heap_get h r) = h.
Proof.
  unfold heap_get.
  revert r; induction h as [|d h IH]; intros [|r]; simpl; trivial.
  now rewrite IH.
Qed.

Lemma heap_get_app_old (h : list dict) (d : dict) (r : ref) :
  (r < length h)%nat -> heap_get (h ++ [d]) r = heap_get h r.
Proof.
  intros H. unfold heap_get. now apply app_nth1.
Qed.

Lemma heap_get_app_new (h : list dict) (d : dict) :
  heap_get (h ++ [d]) (length h) = d.
Proof.
  unfold heap_get. rewrite app_nth2 by lia. now rewrite Nat.sub_diag.
Qed.

Lemma heap_set_app_new (h : list dict) (d d' : dict) :
  heap_set (h ++ [d]) (length h) d' = h ++ [d'].
Proof.
  induction h as [|d0 h IH]; simpl; trivial. now rewrite IH.
Qed.

Lemma set_heap_same (st : pystate) : set_heap (heap st) st = st.
Proof. now destruct st. Qed.

(** ** The objective *)

Lemma for_each_assign (params : list R) (cur : ref) (names : list string) :
  forall (i : nat) (st : pystate),
    (cur < length (heap st))%nat ->
    for_each (combine (seq i (length names)) names)
      (fun '(i, name) =>
         v <- lift (py_index params i) ;; dict_setitem cur name v) st =
    (fst (assign_free i names params (heap_get (heap st) cur)),
     set_heap
       (heap_set (heap st) cur
          (snd (assign_free i names params (heap_get (heap st) cur)))) st).
Proof.
  induction names as [|name names IH]; intros i st Hcur.
  - simpl. unfold ret. now rewrite heap_set_get, set_heap_same.
  - cbn [length seq combine for_each assign_free].
    unfold bind at 1. unfold bind at 1. unfold lift, py_index.
    destruct (nth_error params i) as [v|].
    + unfold dict_setitem at 1.
      rewrite IH by (simpl; now rewrite heap_set_length).
      simpl heap. rewrite heap_get_set_same by assumption.
      rewrite heap_set_set. reflexivity.
    + simpl. now rewrite heap_set_get, set_heap_same.
Qed.

Lemma objective_function_eq (pm : Pymunk) (params : list R)
    (names : list string) (fixed_params : ref) (gt : list Vec) (steps : Z)
    (impulses : schedule) (st : pystate) :
  objective_function pm params names fixed_params gt steps impulses st =
  (objective_value pm params names (heap_get (heap st) fixed_params) gt steps impulses,
   after_evaluation st
     (snd (assign_free 0 names params (heap_get (heap st) fixed_params)))
     (objective_value pm params names (heap_get (heap st) fixed_params) gt steps impulses)).
Proof.
  unfold objective_function, objective_value, after_evaluation, enumerate.
  unfold bind at 1. unfold get_call_count.
  unfold bind at 1. unfold set_call_count.
  unfold bind at 1. unfold dict_copy, bind at 1, deref at 1, new_dict.
  cbn [heap call_count current_stage stdout set_heap].
  unfold bind at 1.
  rewrite for_each_assign
    by (unfold set_heap; cbn [heap]; rewrite length_app; simpl; lia).
  unfold set_heap.
  cbn [heap call_count current_stage stdout set_heap].
  rewrite heap_get_app_new, heap_set_app_new.
  destruct (assign_free 0 names params (heap_get (heap st) fixed_params))
    as [[[]|e] merged]; cbn [fst snd]; [|reflexivity].
  unfold bind at 1, deref at 1. cbn [heap]. rewrite heap_get_app_new.
  unfold bind at 1, lift at 1.
  destruct (Simulator.__init__ pm (Some merged)) as [simulator|e]; [|reflexivity].
  unfold bind at 1, lift at 1.
  destruct (calculate_rmse gt _) as [rmse|e]; [|reflexivity].
  unfold bind, deref, get_current_stage, get_call_count, print, ret.
  cbn [heap call_count current_stage stdout]. rewrite heap_get_app_new.
  reflexivity.
Qed.

Lemma assign_free_short (params : list R) (names : list string) :
  forall (i : nat) (d : dict),
    (i <= length params < i + length names)%nat ->
    fst (assign_free i names params d) = Raise IndexError.
Proof.
  induction names as [|name names IH]; intros i d H; simpl in *; [lia|].
  destruct (nth_error params i) as [v|] eqn:E; [|reflexivity].
  apply IH. assert (i < length params)%nat; [|lia].
  apply nth_error_Some. congruence.
Qed.

Lemma assign_free_firstn (params : list R) (n : nat) (names : list string) :
  forall (i : nat) (d : dict),
    (i + length names <= n)%nat ->
    assign_free i names (firstn n params) d = assign_free i names params d.
Proof.
  induction names as [|name names IH]; intros i d H; simpl in *; [reflexivity|].
  rewrite nth_error_firstn.
  destruct (Nat.ltb_spec i n) as [_|Hge]; [|lia].
  destruct (nth_error params i); [|reflexivity].
  apply IH. lia.
Qed.

(** C8.  The value returned by the objective is a function of its
    arguments and of the items of the fixed-parameter dict alone: two
    evaluations with the same free values agree whatever the counter, the
    stage label, the output so far and the rest of the store are, and in
    particular an evaluation repeated right after the first returns the
    same value.  An evaluation adds one to [call_count], leaves
    [current_stage] and every dict that existed before (the caller's
    [fixed_params] among them) as they were, and appends to the output
    exactly one line, carrying the returned value, when it returns, and
    nothing when it raises. *)
Theorem objective_is_deterministic (pm : Pymunk) (params : list R)
    (names : list string) (fixed_params : ref) (gt : list Vec) (steps : Z)
    (impulses : schedule) :
  let objective :=
    objective_function pm params names fixed_params gt steps impulses in
  (forall st1 st2 : pystate,
      heap_get (heap st1) fixed_params = heap_get (heap st2) fixed_params ->
      fst (objective st1) = fst (objective st2)) /\
  (forall st : pystate,
      (fixed_params < length (heap st))%nat ->
      fst (objective (snd (objective st))) = fst (objective st)) /\
  (forall st : pystate,
      fst (objective st) =
        objective_value pm params names (heap_get (heap st) fixed_params)
          gt steps impulses /\
      call_count (snd (objective st)) = (call_count st + 1)%Z /\
      current_stage (snd (objective st)) = current_stage st /\
      (forall r : ref, (r < length (heap st))%nat ->
          heap_get (heap (snd (objective st))) r = heap_get (heap st) r) /\
      match fst (objective st) with
      | Ok rmse =>
          exists items : dict,
            stdout (snd (objective st)) =
            stdout st ++ [GuessLine (current_stage st) (call_count st + 1)
                            items rmse]
      | Raise _ => stdout (snd (objective st)) = stdout st
      end).
Proof.
  intros objective. unfold objective.
  split; [|split].
  - intros st1 st2 H. rewrite !objective_function_eq. simpl. now rewrite H.
  - intros st H. rewrite !objective_function_eq. cbn [fst snd].
    unfold after_evaluation at 1. cbn [heap].
    now rewrite heap_get_app_old.
  - intros st. rewrite objective_function_eq. cbn [fst snd].
    split; [reflexivity|]. split; [reflexivity|]. split; [reflexivity|].
    split.
    + intros r Hr. cbn [after_evaluation heap]. now apply heap_get_app_old.
    + destruct (objective_value pm params names _ gt steps impulses) as [rmse|e].
      * eexists. reflexivity.
      * reflexivity.
Qed.

Lemma objective_is_deterministic_witness :
  let st0 := {| call_count := 0; current_stage := "Stage B (Slide)";
                stdout := [];
                heap := [[("elasticity"%string, 0.9); ("mass"%string, 12.0)]] |} in
  let objective :=
    objective_function ballistic [0.5] ["friction"%string] 0%nat
      [(0, 299); (0, 298)] 2 [] in
  fst (objective (snd (objective st0))) = fst (objective st0).
Proof.
  intros st0 objective.
  apply (proj1 (proj2 (objective_is_deterministic ballistic [0.5]
                         ["friction"%string] 0%nat [(0, 299); (0, 298)] 2 []))
           st0).
  simpl. lia.
Defined.

(** C4, as the code has it.  With fewer free values than names the
    evaluation raises [IndexError] at the first name without a value,
    before any simulation, and prints nothing.  With more free values
    than names the surplus is never read: the evaluation is in every
    respect the one on the leading [len(search_space_names)] values. *)
Theorem objective_arity_mismatch (pm : Pymunk) (params : list R)
    (names : list string) (fixed_params : ref) (gt : list Vec) (steps : Z)
    (impulses : schedule) (st : pystate) :
  ((length params < length names)%nat ->
   fst (objective_function pm params names fixed_params gt steps impulses st)
     = Raise IndexError /\
   stdout (snd (objective_function pm params names fixed_params gt steps impulses st))
     = stdout st) /\
  ((length names < length params)%nat ->
   objective_function pm params names fixed_params gt steps impulses st =
   objective_function pm (firstn (length names) params) names fixed_params
     gt steps impulses st).
Proof.
  split; intros H; rewrite !objective_function_eq.
  - assert (E : objective_value pm params names
                  (heap_get (heap st) fixed_params) gt steps impulses
                = Raise IndexError).
    { unfold objective_value.
      pose proof (assign_free_short params names 0
                    (heap_get (heap st) fixed_params) ltac:(lia)) as Hs.
      destruct (assign_free 0 names params _) as [[[]|e] merged];
        simpl in Hs; [discriminate|]. now injection Hs as ->. }
    rewrite E. split; reflexivity.
  - unfold objective_value. now rewrite assign_free_firstn by lia.
Qed.

Lemma objective_arity_mismatch_witness :
  let st0 := {| call_count := 0; current_stage := "Stage A (Bounce)";
                stdout := []; heap := [[("friction"%string, 0.5)]] |} in
  fst (objective_function ballistic [0.9] ["elasticity"; "mass"]%string 0%nat
         [(0, 299); (0, 298)] 2 [] st0) = Raise IndexError /\
  objective_function ballistic [0.9; 12.0; 7.0] ["elasticity"; "mass"]%string 0%nat
    [(0, 299); (0, 298)] 2 [] st0 =
  objective_function ballistic [0.9; 12.0] ["elasticity"; "mass"]%string 0%nat
    [(0, 299); (0, 298)] 2 [] st0.
Proof.
  intros st0. split.
  - apply (proj1 (objective_arity_mismatch ballistic [0.9]
                    ["elasticity"; "mass"]%string 0%nat [(0, 299); (0, 298)]
                    2 [] st0)).
    simpl. lia.
  - apply (proj2 (objective_arity_mismatch ballistic [0.9; 12.0; 7.0]
                    ["elasticity"; "mass"]%string 0%nat [(0, 299); (0, 298)]
                    2 [] st0)).
    simpl. lia.
Defined.

(** C4 as stated fails when more values than names are supplied: the
    evaluation returns an RMSE. *)
Lemma surplus_free_values_return_rmse :
  let st0 := {| call_count := 0; current_stage := "Stage B (Slide)";
                stdout := [];
                heap := [[("elasticity"%string, 0.9); ("mass"%string, 12.0)]] |} in
  length [0.5; 0.9] <> length ["friction"%string] /\
  exists rmse : R,
    fst (objective_function ballistic [0.5; 0.9] ["friction"%string] 0%nat
           [(0, 299); (0, 298)] 2 [] st0) = Ok (Num rmse).
Proof.
  intros st0. split; [discriminate|].
  rewrite objective_function_eq. eexists. reflexivity.
Qed.

(** ** The controller *)

Lemma bind_ok {A B : Type} (c : M A) (k : A -> M B) (st st' : pystate) (a : A) :
  c st = (Ok a, st') -> bind c k st = k a st'.
Proof.
  intros H. unfold bind. now rewrite H.
Qed.

Ltac run_step :=
  erewrite bind_ok; [| reflexivity].

Ltac sim_step H :=
  erewrite bind_ok; [| unfold lift; rewrite H; reflexivity].

(** C2.  Whatever the optimizer is: if the engine builds the ground-truth
    simulator and the three searches return points of the dimension of
    their search space, the controller makes exactly these three searches
    one after the other, each starting in the state the previous one
    left.  Stage A searches elasticity and mass with the fixed dict
    [{friction: 0.5}], the initial guess.  Stage B searches friction with
    the fixed dict holding Stage A's best point under the names
    elasticity and mass.  Stage C searches friction, elasticity and mass
    with an empty fixed dict, warm-started at Stage B's friction followed
    by Stage A's elasticity and mass.  The final parameter set is Stage
    C's best point under the names friction, elasticity, mass, in that
    order. *)
Theorem staged_calibration_threads_stages (pm : Pymunk) (sk : Skopt)
    (st0 s1 s2 s3 : pystate) (w : Space pm) (ra rb rc : OptimizeResult) :
  let traj_a :=
    snd (Simulator.run_simulation_for_trajectory pm w EXP_A_STEPS EXP_A_IMPULSES) in
  let traj_b :=
    snd (Simulator.run_simulation_for_trajectory pm w EXP_B_STEPS EXP_B_IMPULSES) in
  let traj_c :=
    snd (Simulator.run_simulation_for_trajectory pm w EXP_C_STEPS EXP_C_IMPULSES) in
  let fixed_a := length (heap st0) in
  let stA :=
    with_dict [("friction"%string, 0.5)]
      (enter_stage "Stage A (Bounce)" "Isolating Elasticity and Mass" st0) in
  let fixed_b := length (heap s1) in
  let stB :=
    with_dict (combine ["elasticity"; "mass"]%string (x ra))
      (enter_stage "Stage B (Slide)" "Isolating Friction"
         (printed (StageALine (nth 0 (x ra) 0) (nth 1 (x ra) 0)) s1)) in
  let fixed_c := length (heap s2) in
  let stC :=
    with_dict []
      (enter_stage "Stage C (Refine)" "Final Refinement of All Parameters"
         (printed (StageBLine (nth 0 (x rb) 0)) s2)) in
  Simulator.__init__ pm (Some GROUND_TRUTH_PARAMS) = Ok w ->
  gp_minimize sk
    (partial_objective pm ["elasticity"; "mass"]%string fixed_a traj_a
       EXP_A_STEPS EXP_A_IMPULSES)
    search_space_a 50 None 25 42 false stA = (Ok ra, s1) ->
  length (x ra) = 2%nat ->
  gp_minimize sk
    (partial_objective pm ["friction"]%string fixed_b traj_b
       EXP_B_STEPS EXP_B_IMPULSES)
    search_space_b 30 None 15 42 false stB = (Ok rb, s2) ->
  length (x rb) = 1%nat ->
  gp_minimize sk
    (partial_objective pm ["friction"; "elasticity"; "mass"]%string fixed_c
       traj_c EXP_C_STEPS EXP_C_IMPULSES)
    search_space_c 70 (Some (x rb ++ x ra)) 35 42 false stC = (Ok rc, s3) ->
  length (x rc) = 3%nat ->
  run_staged_calibration pm sk st0 =
    (Ok (combine ["friction"; "elasticity"; "mass"]%string (x rc)), s3) /\
  heap_get (heap stA) fixed_a = [("friction"%string, 0.5)] /\
  heap_get (heap stB) fixed_b = combine ["elasticity"; "mass"]%string (x ra) /\
  heap_get (heap stC) fixed_c = [].
Proof.
  intros traj_a traj_b traj_c fixed_a stA fixed_b stB fixed_c stC
    Hsim HA La HB Lb HC Lc.
  destruct ra as [xa], rb as [xb], rc as [xc]. simpl in La, Lb, Lc.
  destruct xa as [|ea [|ma [|? ?]]]; try discriminate La.
  destruct xb as [|fb [|? ?]]; try discriminate Lb.
  destruct xc as [|fc [|ec [|mc [|? ?]]]]; try discriminate Lc.
  split; [|split; [|split]];
    try (unfold with_dict, set_heap; cbn [heap enter_stage printed];
         apply heap_get_app_new).
  unfold run_staged_calibration.
  (* stage A *)
  do 4 run_step. sim_step Hsim. do 2 run_step.
  erewrite bind_ok by exact HA.
  do 5 run_step.
  (* stage B *)
  do 4 run_step. sim_step Hsim. do 3 run_step.
  erewrite bind_ok by exact HB.
  do 3 run_step.
  (* stage C *)
  do 4 run_step. sim_step Hsim. run_step.
  erewrite bind_ok by exact HC.
  do 3 run_step.
  reflexivity.
Qed.

Lemma assign_free_ok (params : list R) (names : list string) :
  forall (i : nat) (d : dict),
    (i + length names <= length params)%nat ->
    fst (assign_free i names params d) = Ok tt.
Proof.
  induction names as [|name names IH]; intros i d H; simpl in *; [reflexivity|].
  destruct (nth_error params i) as [v|] eqn:E.
  - apply IH. lia.
  - apply nth_error_None in E. lia.
Qed.

(** On the ballistic engine, with a ground truth of the run's own length,
    one search of the stub optimizer returns its point. *)
Lemma corner_stub_search (names : list string) (fixed_params : ref)
    (w0 : Particle) (steps : Z) (impulses : schedule) (dimensions : list Real)
    (n_calls : Z) (x0 : option (list R)) (n_initial_points random_state : Z)
    (verbose : bool) (st : pystate) :
  let point := match x0 with Some p => p | None => map low dimensions end in
  (0 < steps)%Z -> (length names <= length point)%nat ->
  exists st' : pystate,
    gp_minimize corner_stub
      (partial_objective ballistic names fixed_params
         (snd (Simulator.run_simulation_for_trajectory ballistic w0 steps impulses))
         steps impulses)
      dimensions n_calls x0 n_initial_points random_state verbose st =
    (Ok {| x := point |}, st').
Proof.
  intros point Hsteps Hlen.
  cbn [gp_minimize corner_stub]. fold point.
  unfold partial_objective, bind. rewrite objective_function_eq.
  unfold objective_value.
  pose proof (assign_free_ok point names 0
                (heap_get (heap st) fixed_params) ltac:(lia)) as Hok.
  destruct (assign_free 0 names point _) as [[[]|e] merged];
    simpl in Hok; [|discriminate].
  cbn [Simulator.__init__ space_create ballistic].
  rewrite calculate_rmse_value.
  - eexists. reflexivity.
  - rewrite run_simulation_for_trajectory_eq. cbn [snd].
    intros E. apply (f_equal (@length Vec)) in E.
    rewrite length_map, length_seq in E. simpl in E. lia.
  - rewrite !run_simulation_for_trajectory_eq. cbn [snd].
    now rewrite !length_map, !length_seq.
Qed.

Lemma staged_calibration_witness :
  exists s3 : pystate,
    run_staged_calibration ballistic corner_stub
      {| call_count := 0; current_stage := ""; stdout := []; heap := [] |} =
    (Ok [("friction"%string, 0.1); ("elasticity"%string, 0.1);
         ("mass"%string, 5.0)], s3).
Proof.
  set (st0 := {| call_count := 0; current_stage := ""; stdout := [];
                 heap := [] |}).
  set (w := {| p_pos := (0, 300); p_vel := (0, 0); p_mass := 12.0;
               p_gravity := (0, -1000) |}).
  set (ra := {| x := [0.1; 5.0] |}).
  set (rb := {| x := [0.1] |}).
  set (rc := {| x := [0.1; 0.1; 5.0] |}).
  destruct (corner_stub_search ["elasticity"; "mass"]%string
              (length (heap st0)) w EXP_A_STEPS EXP_A_IMPULSES search_space_a
              50 None 25 42 false
              (with_dict [("friction"%string, 0.5)]
                 (enter_stage "Stage A (Bounce)"
                    "Isolating Elasticity and Mass" st0))
              eq_refl (le_n 2)) as [s1 HA].
  destruct (corner_stub_search ["friction"]%string
              (length (heap s1)) w EXP_B_STEPS EXP_B_IMPULSES search_space_b
              30 None 15 42 false
              (with_dict (combine ["elasticity"; "mass"]%string (x ra))
                 (enter_stage "Stage B (Slide)" "Isolating Friction"
                    (printed (StageALine (nth 0 (x ra) 0) (nth 1 (x ra) 0)) s1)))
              eq_refl (le_n 1)) as [s2 HB].
  destruct (corner_stub_search ["friction"; "elasticity"; "mass"]%string
              (length (heap s2)) w EXP_C_STEPS EXP_C_IMPULSES search_space_c
              70 (Some (x rb ++ x ra)) 35 42 false
              (with_dict []
                 (enter_stage "Stage C (Refine)"
                    "Final Refinement of All Parameters"
                    (printed (StageBLine (nth 0 (x rb) 0)) s2)))
              eq_refl (le_n 3)) as [s3 HC].
  exists s3.
  exact (proj1 (staged_calibration_threads_stages ballistic corner_stub
                  st0 s1 s2 s3 w ra rb rc eq_refl HA eq_refl HB eq_refl HC
                  eq_refl)).
Defined.

(** * Further properties of the code *)

(** ** The comparators: outcomes *)


(** X1.  The plain comparator of [main.py] has three outcomes.  It
    returns a number exactly when both trajectories are non-empty and
    either have one length or one of them is a single point (numpy then
    stretches that point); it returns NaN exactly when both are empty;
    in every other case it raises [ValueError], and it raises nothing
    else. *)
Theorem calculate_rmse_outcomes (t1 t2 : list Vec) :
  ((exists r, calculate_rmse t1 t2 = Ok (Num r)) <->
   t1 <> [] /\ t2 <> [] /\
   (length t1 = length t2 \/ length t1 = 1%nat \/ length t2 = 1%nat)) /\
  (calculate_rmse t1 t2 = Ok NaN <-> t1 = [] /\ t2 = []) /\
  (calculate_rmse t1 t2 = Raise ValueError <->
   ~ (t1 = [] /\ t2 = []) /\
   ~ (t1 <> [] /\ t2 <> [] /\
      (length t1 = length t2 \/ length t1 = 1%nat \/ length t2 = 1%nat))) /\
  (forall e, calculate_rmse t1 t2 = Raise e -> e = ValueError).
Proof.
  destruct (calculate_rmse_trichotomy t1 t2)
    as [(H1 & H2 & E) | [(H1 & H2 & H3 & r & E) | (H1 & H2 & E)]];
    rewrite E.
  - split; [|split; [|split]].
    + split; [intros [r H]; discriminate H | intros (H & _); contradiction].
    + tauto.
    + split; [discriminate | intros (H & _); tauto].
    + discriminate.
  - split; [|split; [|split]].
    + split; [tauto | intros _; now exists r].
    + split; [discriminate | intros (H & _); contradiction].
    + split; [discriminate | intros (_ & H); tauto].
    + discriminate.
  - split; [|split; [|split]].
    + split; [intros [r H]; discriminate H | tauto].
    + split; [discriminate | tauto].
    + tauto.
    + intros e H. now injection H as <-.
Qed.


(** X2.  The padding comparator of [optimizer.py] returns a number, and
    a non-negative one, exactly when both trajectories are non-empty,
    whatever their lengths; it returns NaN exactly when both are empty;
    it raises [IndexError] exactly when one is empty and the other is
    not, and it raises nothing else (in particular never the
    [ValueError] of a shape mismatch). *)
Theorem _calculate_rmse_outcomes (t1 t2 : list Vec) :
  ((exists r, _calculate_rmse t1 t2 = Ok (Num r)) <-> t1 <> [] /\ t2 <> []) /\
  (forall r, _calculate_rmse t1 t2 = Ok (Num r) -> 0 <= r) /\
  (_calculate_rmse t1 t2 = Ok NaN <-> t1 = [] /\ t2 = []) /\
  (_calculate_rmse t1 t2 = Raise IndexError <->
   ~ (t1 = [] /\ t2 = []) /\ ~ (t1 <> [] /\ t2 <> [])) /\
  (forall e, _calculate_rmse t1 t2 = Raise e -> e = IndexError).
Proof.
  destruct (_calculate_rmse_trichotomy t1 t2)
    as [(H1 & H2 & E) | [(H1 & H2 & r & E & Hr) | (H1 & H2 & E)]];
    rewrite E.
  - split; [|split; [|split; [|split]]].
    + split; [intros [r H]; discriminate H | intros (H & _); contradiction].
    + discriminate.
    + tauto.
    + split; [discriminate | intros (H & _); tauto].
    + discriminate.
  - split; [|split; [|split; [|split]]].
    + split; [tauto | intros _; now exists r].
    + intros r' H. injection H as <-. exact Hr.
    + split; [discriminate | intros (H & _); contradiction].
    + split; [discriminate | intros (_ & H); tauto].
    + discriminate.
  - split; [|split; [|split; [|split]]].
    + split; [intros [r H]; discriminate H | tauto].
    + discriminate.
    + split; [discriminate | tauto].
    + tauto.
    + intros e H. now injection H as <-.
Qed.

Lemma calculate_rmse_outcomes_witness :
  calculate_rmse [(0, 0); (1, 1); (2, 2)] [(0, 0); (1, 1)] = Raise ValueError /\
  exists r, calculate_rmse [(0, 0); (1, 1); (2, 2)] [(5, 5)] = Ok (Num r).
Proof.
  split.
  - apply (proj1 (proj2 (proj2 (calculate_rmse_outcomes
                                  [(0, 0); (1, 1); (2, 2)] [(0, 0); (1, 1)])))).
    split.
    + intros [H _]. discriminate H.
    + intros (_ & _ & [H|[H|H]]); discriminate H.
  - apply (proj1 (calculate_rmse_outcomes [(0, 0); (1, 1); (2, 2)] [(5, 5)])).
    split; [discriminate|]. split; [discriminate|]. right; right. reflexivity.
Defined.

Lemma _calculate_rmse_outcomes_witness :
  (exists r, _calculate_rmse [(0, 0); (1, 1); (2, 2)] [(0, 0); (1, 1)] = Ok (Num r)) /\
  _calculate_rmse [(0, 0); (1, 1)] [] = Raise IndexError.
Proof.
  split.
  - apply (proj1 (_calculate_rmse_outcomes
                    [(0, 0); (1, 1); (2, 2)] [(0, 0); (1, 1)])).
    split; discriminate.
  - apply (proj1 (proj2 (proj2 (proj2 (_calculate_rmse_outcomes
                                         [(0, 0); (1, 1)] []))))).
    split.
    + intros [H _]. discriminate H.
    + intros [_ H]. now apply H.
Defined.

(** ** The comparators: bounds, triangle inequality, translation *)



















(** ** The simulator: step counts, schedules, continued runs *)

Lemma run_simulation_ext (pm : Pymunk) (w : Space pm) (steps : Z)
    (imp imp' : schedule) :
  (forall s : Z, (0 <= s < steps)%Z ->
      scheduled_at s imp = scheduled_at s imp') ->
  Simulator.run_simulation_for_trajectory pm w steps imp =
  Simulator.run_simulation_for_trajectory pm w steps imp'.
Proof.
  intros H. rewrite !run_simulation_for_trajectory_eq. f_equal.
  - apply state_after_ext. intros s Hs. apply H. lia.
  - apply map_ext_in. intros i Hi. apply in_seq in Hi. f_equal.
    apply state_after_ext. intros s Hs. apply H. lia.
Qed.

Lemma scheduled_at_in_run (steps s : Z) (impulses : schedule) :
  (0 <= s < steps)%Z ->
  scheduled_at s (filter (in_run steps) impulses) = scheduled_at s impulses.
Proof.
  intros Hs. unfold scheduled_at.
  induction impulses as [|e impulses IH]; [reflexivity|].
  simpl. destruct (in_run steps e) eqn:E; simpl.
  - destruct (Z.eqb s (fst e)); simpl; now rewrite IH.
  - destruct (Z.eqb s (fst e)) eqn:E'; [|exact IH].
    apply Z.eqb_eq in E'. exfalso.
    assert (in_run steps e = true) by (apply in_run_spec; lia). congruence.
Qed.

(** X6.  For every integer [steps] the trajectory has [max(0, steps)]
    entries.  With [steps <= 0] the loop body never runs: the trajectory
    is empty, the simulator is returned as it was, and the engine is not
    called at all. *)
Theorem run_without_steps (pm : Pymunk) (w : Space pm) (steps : Z)
    (impulses : schedule) :
  Z.of_nat (length (snd (Simulator.run_simulation_for_trajectory pm w
                           steps impulses))) = Z.max 0 steps /\
  ((steps <= 0)%Z ->
   Simulator.run_simulation_for_trajectory pm w steps impulses = (w, []) /\
   fst (Simulator.run_simulation_for_trajectory recorder [] steps impulses) = []).
Proof.
  split.
  - rewrite run_simulation_for_trajectory_eq. simpl.
    rewrite length_map, length_seq. lia.
  - intros H. rewrite !run_simulation_for_trajectory_eq.
    replace (Z.to_nat steps) with 0%nat by lia. split; reflexivity.
Qed.

Lemma run_without_steps_witness :
  Simulator.run_simulation_for_trajectory ballistic
    {| p_pos := (0, 300); p_vel := (0, 0); p_mass := 10;
       p_gravity := (0, -1000) |}
    (-3) [(0%Z, (0, 8000))] =
  ({| p_pos := (0, 300); p_vel := (0, 0); p_mass := 10;
      p_gravity := (0, -1000) |}, []).
Proof.
  apply (proj2 (run_without_steps ballistic
                  {| p_pos := (0, 300); p_vel := (0, 0); p_mass := 10;
                     p_gravity := (0, -1000) |}
                  (-3) [(0%Z, (0, 8000))])).
  discriminate.
Defined.

(** X7.  Schedule entries whose step index is negative or at least
    [steps] have no effect on a run: the run is the one of the schedule
    with those entries removed, and a schedule with no entry inside the
    run gives the run of the empty schedule. *)
Theorem impulses_outside_run_ignored (pm : Pymunk) (w : Space pm)
    (steps : Z) (impulses : schedule) :
  Simulator.run_simulation_for_trajectory pm w steps impulses =
  Simulator.run_simulation_for_trajectory pm w steps
    (filter (in_run steps) impulses) /\
  ((forall e, In e impulses -> (fst e < 0 \/ steps <= fst e)%Z) ->
   Simulator.run_simulation_for_trajectory pm w steps impulses =
   Simulator.run_simulation_for_trajectory pm w steps []).
Proof.
  assert (H : Simulator.run_simulation_for_trajectory pm w steps impulses =
              Simulator.run_simulation_for_trajectory pm w steps
                (filter (in_run steps) impulses)).
  { apply run_simulation_ext. intros s Hs. symmetry.
    now apply scheduled_at_in_run. }
  split; [exact H|].
  intros Hout. rewrite H. f_equal.
  clear H. induction impulses as [|e impulses IH]; [reflexivity|].
  simpl. destruct (in_run steps e) eqn:E.
  - apply in_run_spec in E. specialize (Hout e (or_introl eq_refl)). lia.
  - apply IH. intros e' He'. apply Hout. now right.
Qed.

Lemma impulses_outside_run_witness :
  Simulator.run_simulation_for_trajectory ballistic
    {| p_pos := (0, 300); p_vel := (0, 0); p_mass := 10;
       p_gravity := (0, -1000) |}
    3 [(3%Z, (25000, 0)); ((-1)%Z, (0, 8000))] =
  Simulator.run_simulation_for_trajectory ballistic
    {| p_pos := (0, 300); p_vel := (0, 0); p_mass := 10;
       p_gravity := (0, -1000) |}
    3 [].
Proof.
  apply (proj2 (impulses_outside_run_ignored ballistic
                  {| p_pos := (0, 300); p_vel := (0, 0); p_mass := 10;
                     p_gravity := (0, -1000) |}
                  3 [(3%Z, (25000, 0)); ((-1)%Z, (0, 8000))])).
  intros e [<-|[<-|[]]]; simpl; lia.
Defined.

Lemma apply_scheduled_shift (pm : Pymunk) (n s : Z) (impulses : schedule)
    (w : Space pm) :
  Simulator.apply_scheduled pm (n + s) impulses w =
  Simulator.apply_scheduled pm s (shift_schedule n impulses) w.
Proof.
  unfold Simulator.apply_scheduled, shift_schedule.
  revert w; induction impulses as [|[t v] impulses IH]; intros w;
    [reflexivity|].
  simpl. replace (Z.eqb s (t - n)) with (Z.eqb (n + s) t).
  - apply IH.
  - apply eq_true_iff_eq. rewrite !Z.eqb_eq. lia.
Qed.

Lemma state_after_shift (pm : Pymunk) (impulses : schedule) (w : Space pm)
    (n k : nat) :
  state_after pm impulses w (n + k) =
  state_after pm (shift_schedule (Z.of_nat n) impulses)
    (state_after pm impulses w n) k.
Proof.
  induction k as [|k IH].
  - now rewrite Nat.add_0_r.
  - rewrite Nat.add_succ_r, !state_after_S, IH. unfold Simulator.advance.
    rewrite <- apply_scheduled_shift. do 2 f_equal. lia.
Qed.

Lemma seq_from (n m : nat) : seq n m = map (fun i => (n + i)%nat) (seq 0 m).
Proof.
  revert n; induction m as [|m IH]; intros n; [reflexivity|].
  simpl. rewrite Nat.add_0_r. f_equal.
  rewrite (IH (S n)), <- seq_shift, map_map.
  apply map_ext. intros i. lia.
Qed.

Lemma firstn_seq_le (n : nat) :
  forall m start : nat, (n <= m)%nat -> firstn n (seq start m) = seq start n.
Proof.
  induction n as [|n IH]; intros [|m] start H; try reflexivity; [lia|].
  simpl. f_equal. apply IH. lia.
Qed.

(** X8.  A shorter run is the beginning of a longer one: from the same
    simulator state and with the same schedule, the trajectory of [n]
    steps is the first [n] entries of the trajectory of [m >= n]
    steps. *)
Theorem shorter_run_is_prefix (pm : Pymunk) (w : Space pm) (n m : Z)
    (impulses : schedule) :
  (0 <= n <= m)%Z ->
  snd (Simulator.run_simulation_for_trajectory pm w n impulses) =
  firstn (Z.to_nat n)
    (snd (Simulator.run_simulation_for_trajectory pm w m impulses)).
Proof.
  intros H. rewrite !run_simulation_for_trajectory_eq. cbn [snd].
  rewrite firstn_map, firstn_seq_le by lia.
  reflexivity.
Qed.

Lemma shorter_run_is_prefix_witness :
  snd (Simulator.run_simulation_for_trajectory ballistic
         {| p_pos := (0, 300); p_vel := (0, 0); p_mass := 10;
            p_gravity := (0, -1000) |}
         2 [(0%Z, (0, 8000))]) =
  firstn 2
    (snd (Simulator.run_simulation_for_trajectory ballistic
            {| p_pos := (0, 300); p_vel := (0, 0); p_mass := 10;
               p_gravity := (0, -1000) |}
            5 [(0%Z, (0, 8000))])).
Proof.
  apply (shorter_run_is_prefix ballistic
           {| p_pos := (0, 300); p_vel := (0, 0); p_mass := 10;
              p_gravity := (0, -1000) |}
           2 5 [(0%Z, (0, 8000))]).
  lia.
Defined.

(** X9.  The method continues from the state it is given and counts
    steps from 0 again.  A run of [n + m] steps is therefore a run of
    [n] steps followed, on the simulator that run leaves, by a run of
    [m] steps whose schedule has every step index lowered by [n]; the
    trajectory is the two trajectories one after the other. *)
Theorem run_continues_with_shifted_schedule (pm : Pymunk) (w : Space pm)
    (n m : Z) (impulses : schedule) :
  (0 <= n)%Z -> (0 <= m)%Z ->
  let first := Simulator.run_simulation_for_trajectory pm w n impulses in
  let second :=
    Simulator.run_simulation_for_trajectory pm (fst first) m
      (shift_schedule n impulses) in
  Simulator.run_simulation_for_trajectory pm w (n + m) impulses =
  (fst second, snd first ++ snd second).
Proof.
  intros Hn Hm first second. unfold second, first.
  rewrite !run_simulation_for_trajectory_eq. cbn [fst snd].
  replace (Z.to_nat (n + m)) with (Z.to_nat n + Z.to_nat m)%nat by lia.
  replace (shift_schedule n impulses)
    with (shift_schedule (Z.of_nat (Z.to_nat n)) impulses) by (f_equal; lia).
  f_equal.
  - apply state_after_shift.
  - rewrite seq_app, map_app. f_equal.
    rewrite (seq_from (0 + Z.to_nat n)), map_map.
    apply map_ext. intros i.
    rewrite <- state_after_shift. do 2 f_equal. simpl. lia.
Qed.

Lemma run_continues_witness :
  Simulator.run_simulation_for_trajectory ballistic
    {| p_pos := (0, 300); p_vel := (0, 0); p_mass := 10;
       p_gravity := (0, -1000) |}
    (2 + 3) [(0%Z, (0, 8000)); (3%Z, (500, 0))] =
  (fst (Simulator.run_simulation_for_trajectory ballistic
          (fst (Simulator.run_simulation_for_trajectory ballistic
                  {| p_pos := (0, 300); p_vel := (0, 0); p_mass := 10;
                     p_gravity := (0, -1000) |}
                  2 [(0%Z, (0, 8000)); (3%Z, (500, 0))]))
          3 (shift_schedule 2 [(0%Z, (0, 8000)); (3%Z, (500, 0))])),
   snd (Simulator.run_simulation_for_trajectory ballistic
          {| p_pos := (0, 300); p_vel := (0, 0); p_mass := 10;
             p_gravity := (0, -1000) |}
          2 [(0%Z, (0, 8000)); (3%Z, (500, 0))])
   ++ snd (Simulator.run_simulation_for_trajectory ballistic
             (fst (Simulator.run_simulation_for_trajectory ballistic
                     {| p_pos := (0, 300); p_vel := (0, 0); p_mass := 10;
                        p_gravity := (0, -1000) |}
                     2 [(0%Z, (0, 8000)); (3%Z, (500, 0))]))
             3 (shift_schedule 2 [(0%Z, (0, 8000)); (3%Z, (500, 0))]))).
Proof.
  apply (run_continues_with_shifted_schedule ballistic
           {| p_pos := (0, 300); p_vel := (0, 0); p_mass := 10;
              p_gravity := (0, -1000) |}
           2 3 [(0%Z, (0, 8000)); (3%Z, (500, 0))]); lia.
Defined.

(** ** The objective of [main.py]: merged parameters and failures *)

Lemma dict_get_set_same (d : dict) (k : string) (v : R) :
  dict_get (dict_set d k v) k = Some v.
Proof.
  induction d as [|[k' v'] d IH]; simpl.
  - now rewrite String.eqb_refl.
  - destruct (String.eqb k k') eqn:E; simpl; rewrite E; [reflexivity | exact IH].
Qed.

Lemma dict_get_set_other (d : dict) (k k' : string) (v : R) :
  k' <> k -> dict_get (dict_set d k v) k' = dict_get d k'.
Proof.
  intros Hne. induction d as [|[k0 v0] d IH]; simpl.
  - apply String.eqb_neq in Hne. now rewrite Hne.
  - destruct (String.eqb k k0) eqn:E; simpl.
    + apply String.eqb_eq in E. subst k0.
      apply String.eqb_neq in Hne. now rewrite Hne.
    + destruct (String.eqb k' k0); [reflexivity | exact IH].
Qed.

Lemma assign_free_keeps (params : list R) (k : string) (names : list string) :
  forall (i : nat) (d : dict),
    ~ In k names ->
    dict_get (snd (assign_free i names params d)) k = dict_get d k.
Proof.
  induction names as [|name names IH]; intros i d H; simpl; [reflexivity|].
  destruct (nth_error params i) as [v|]; [|reflexivity].
  rewrite IH by (intros H'; apply H; now right).
  apply dict_get_set_other. intros ->. apply H. now left.
Qed.

Lemma assign_free_last_wins (params : list R) (name : string)
    (names : list string) :
  forall (i j : nat) (d : dict),
    fst (assign_free i names params d) = Ok tt ->
    nth_error names j = Some name ->
    (forall j' : nat, (j < j')%nat -> nth_error names j' <> Some name) ->
    dict_get (snd (assign_free i names params d)) name =
      nth_error params (i + j) /\
    exists v, nth_error params (i + j) = Some v.
Proof.
  induction names as [|n0 names IH]; intros i j d Hok Hj Hlast.
  - destruct j; discriminate Hj.
  - simpl in Hok |- *.
    destruct (nth_error params i) as [v|] eqn:E; [|discriminate Hok].
    destruct j as [|j].
    + injection Hj as ->. rewrite Nat.add_0_r, E.
      split; [|now exists v].
      rewrite assign_free_keeps; [apply dict_get_set_same|].
      intros Hin. apply In_nth_error in Hin. destruct Hin as [j' Hj'].
      apply (Hlast (S j')); [lia | exact Hj'].
    + replace (i + S j)%nat with (S i + j)%nat by lia.
      apply IH; [exact Hok | exact Hj|].
      intros j' Hlt. apply (Hlast (S j')). lia.
Qed.

Lemma assign_free_result (params : list R) (names : list string) :
  forall (i : nat) (d : dict),
    (i <= length params)%nat ->
    (fst (assign_free i names params d) = Ok tt /\
     (i + length names <= length params)%nat) \/
    (fst (assign_free i names params d) = Raise IndexError /\
     (length params < i + length names)%nat).
Proof.
  induction names as [|name names IH]; intros i d Hi; simpl.
  - left. split; [reflexivity | lia].
  - destruct (nth_error params i) as [v|] eqn:E.
    + assert (i < length params)%nat by (apply nth_error_Some; congruence).
      destruct (IH (S i) (dict_set d name v) ltac:(lia)) as [[H1 H2]|[H1 H2]].
      * left. split; [exact H1 | lia].
      * right. split; [exact H1 | lia].
    + apply nth_error_None in E. right. split; [reflexivity | lia].
Qed.

Lemma run_trajectory_length (pm : Pymunk) (w : Space pm) (steps : Z)
    (impulses : schedule) :
  length (snd (Simulator.run_simulation_for_trajectory pm w steps impulses))
  = Z.to_nat steps.
Proof.
  rewrite run_simulation_for_trajectory_eq. cbn [snd].
  now rewrite length_map, length_seq.
Qed.

(** X10.  A completed evaluation of the objective simulated with, and
    printed, the merged parameters: every key that is not a free name
    keeps the value of the fixed dict, every free name carries the free
    value at the position of its last occurrence among the names (so a
    free name overrides a fixed key of the same name), and the returned
    value is the plain RMSE between the ground truth and the trajectory
    of a simulator built from exactly these parameters. *)
Theorem objective_merges_free_over_fixed (pm : Pymunk) (params : list R)
    (names : list string) (fixed_params : ref) (gt : list Vec) (steps : Z)
    (impulses : schedule) (st : pystate) (rmse : npfloat) :
  let out :=
    objective_function pm params names fixed_params gt steps impulses st in
  fst out = Ok rmse ->
  exists (items : dict) (simulator : Space pm),
    stdout (snd out) =
      stdout st ++ [GuessLine (current_stage st) (call_count st + 1) items rmse] /\
    Simulator.__init__ pm (Some items) = Ok simulator /\
    calculate_rmse gt
      (snd (Simulator.run_simulation_for_trajectory pm simulator steps impulses))
      = Ok rmse /\
    (forall k : string, ~ In k names ->
        dict_get items k = dict_get (heap_get (heap st) fixed_params) k) /\
    (forall (j : nat) (name : string),
        nth_error names j = Some name ->
        (forall j' : nat, (j < j')%nat -> nth_error names j' <> Some name) ->
        dict_get items name = nth_error params j /\
        exists v, nth_error params j = Some v).
Proof.
  intros out. unfold out. rewrite objective_function_eq. cbn [fst snd].
  unfold objective_value.
  destruct (assign_free 0 names params (heap_get (heap st) fixed_params))
    as [[[]|e] merged] eqn:E; [|discriminate].
  destruct (Simulator.__init__ pm (Some merged)) as [simulator|e] eqn:Es;
    [|discriminate].
  intros Hr. exists merged, simulator.
  split; [unfold after_evaluation; cbn [stdout]; now rewrite Hr|].
  split; [exact Es|]. split; [exact Hr|].
  replace merged
    with (snd (assign_free 0 names params (heap_get (heap st) fixed_params)))
    by now rewrite E.
  split.
  - intros k Hk. now apply assign_free_keeps.
  - intros j name Hj Hlast.
    apply (assign_free_last_wins params name names 0 j);
      [now rewrite E | exact Hj | exact Hlast].
Qed.

Lemma objective_merges_witness :
  let st0 := {| call_count := 0; current_stage := "Stage B (Slide)";
                stdout := [];
                heap := [[("friction"%string, 0.9); ("mass"%string, 12.0)]] |} in
  exists (items : dict) (rmse : npfloat),
    stdout (snd (objective_function ballistic [0.5] ["friction"%string] 0%nat
                   [(0, 299); (0, 298)] 2 [] st0)) =
      [GuessLine "Stage B (Slide)" 1 items rmse] /\
    dict_get items "friction" = Some 0.5 /\
    dict_get items "mass" = Some 12.0.
Proof.
  intros st0.
  assert (H : exists r : R,
             fst (objective_function ballistic [0.5] ["friction"%string] 0%nat
                    [(0, 299); (0, 298)] 2 [] st0) = Ok (Num r)).
  { rewrite objective_function_eq. eexists. reflexivity. }
  destruct H as [r H].
  destruct (objective_merges_free_over_fixed ballistic [0.5]
              ["friction"%string] 0%nat [(0, 299); (0, 298)] 2 [] st0
              (Num r) H) as (items & sim & Hout & _ & _ & Hkeep & Hfree).
  exists items, (Num r). split; [exact Hout|]. split.
  - apply (Hfree 0%nat "friction"%string eq_refl).
    intros [|[|j']] Hlt; try lia; discriminate.
  - rewrite (Hkeep "mass"%string); [reflexivity|].
    intros [H'|[]]. discriminate H'.
Defined.

(** X11.  A construction that the engine refuses surfaces unchanged.
    When the assignments of the free values run to their end and leave
    the merged parameters [items] (every key that is not a free name with
    its fixed value, every free name with the free value at the position
    of its last occurrence), and the engine refuses the scene built from
    [items] with an error, the evaluation raises that very error,
    whatever the ground truth, the step count and the schedule are; it
    has counted the call and printed nothing. *)
Theorem objective_surfaces_refused_construction (pm : Pymunk)
    (params : list R) (names : list string) (fixed_params : ref)
    (gt : list Vec) (steps : Z) (impulses : schedule) (st : pystate)
    (items : dict) (e : exn) :
  assign_free 0 names params (heap_get (heap st) fixed_params)
    = (Ok tt, items) ->
  Simulator.__init__ pm (Some items) = Raise e ->
  let out :=
    objective_function pm params names fixed_params gt steps impulses st in
  fst out = Raise e /\
  stdout (snd out) = stdout st /\
  call_count (snd out) = (call_count st + 1)%Z /\
  (forall k : string, ~ In k names ->
      dict_get items k = dict_get (heap_get (heap st) fixed_params) k) /\
  (forall (j : nat) (name : string),
      nth_error names j = Some name ->
      (forall j' : nat, (j < j')%nat -> nth_error names j' <> Some name) ->
      dict_get items name = nth_error params j).
Proof.
  intros Hmerge Hsim out. unfold out.
  rewrite objective_function_eq. cbn [fst snd].
  assert (Hv : objective_value pm params names
                 (heap_get (heap st) fixed_params) gt steps impulses
               = Raise e).
  { unfold objective_value. now rewrite Hmerge, Hsim. }
  rewrite Hv. split; [reflexivity|]. split; [reflexivity|].
  split; [reflexivity|].
  replace items
    with (snd (assign_free 0 names params (heap_get (heap st) fixed_params)))
    by now rewrite Hmerge.
  split.
  - intros k Hk. now apply assign_free_keeps.
  - intros j name Hj Hlast.
    apply (assign_free_last_wins params name names 0 j);
      [now rewrite Hmerge | exact Hj | exact Hlast].
Qed.

Lemma objective_surfaces_refused_construction_witness :
  let st0 := {| call_count := 0; current_stage := "Stage B (Slide)";
                stdout := []; heap := [[("mass"%string, 12.0)]] |} in
  let out :=
    objective_function refusing [0.5] ["friction"%string] 0%nat
      [(0, 299); (0, 298)] 2 [] st0 in
  fst out = Raise BackendError /\ stdout (snd out) = [] /\
  call_count (snd out) = 1%Z.
Proof.
  intros st0 out.
  destruct (objective_surfaces_refused_construction refusing [0.5]
              ["friction"%string] 0%nat [(0, 299); (0, 298)] 2 [] st0
              [("mass"%string, 12.0); ("friction"%string, 0.5)] BackendError
              eq_refl eq_refl) as (H1 & H2 & H3 & _).
  split; [exact H1|]. split; [exact H2 | exact H3].
Defined.

(** X12.  The objective of [main.py] compares a ground truth only with a
    run of its own length.  Whenever an evaluation returns a number, the
    number is non-negative, [steps] is positive, there were at least as
    many free values as names, and the ground truth is non-empty and has
    [steps] points, or is a single point, or [steps] is 1.  It returns
    NaN only for an empty ground truth with [steps <= 0].  For every
    other ground truth each evaluation raises: a ground truth recorded
    with another step count is never compared by padding. *)
Theorem objective_needs_matching_ground_truth (pm : Pymunk) (params : list R)
    (names : list string) (fixed_params : ref) (gt : list Vec) (steps : Z)
    (impulses : schedule) (st : pystate) :
  let out :=
    objective_function pm params names fixed_params gt steps impulses st in
  let fits :=
    (0 < steps)%Z /\ gt <> [] /\
    (length gt = Z.to_nat steps \/ length gt = 1%nat \/ Z.to_nat steps = 1%nat) in
  (forall r : R,
      fst out = Ok (Num r) ->
      0 <= r /\ fits /\ (length names <= length params)%nat) /\
  (fst out = Ok NaN -> gt = [] /\ (steps <= 0)%Z) /\
  (~ fits -> ~ (gt = [] /\ (steps <= 0)%Z) -> exists e : exn, fst out = Raise e).
Proof.
  intros out fits. unfold out, fits.
  rewrite objective_function_eq. cbn [fst].
  unfold objective_value.
  destruct (assign_free_result params names 0
              (heap_get (heap st) fixed_params) (Nat.le_0_l _))
    as [[Hok Hlen]|[Hko Hlen]].
  - destruct (assign_free 0 names params _) as [[[]|e'] merged];
      [|discriminate Hok].
    destruct (Simulator.__init__ pm (Some merged)) as [simulator|e'].
    + pose proof (run_trajectory_length pm simulator steps impulses) as Hl.
      set (traj := snd (Simulator.run_simulation_for_trajectory pm simulator
                          steps impulses)) in *.
      assert (Hpos : traj <> [] -> (0 < steps)%Z).
      { intros Ht. destruct traj; [contradiction | simpl in Hl; lia]. }
      assert (Hnil : traj = [] -> (steps <= 0)%Z).
      { intros Ht. rewrite Ht in Hl. simpl in Hl. lia. }
      destruct (calculate_rmse_trichotomy gt traj)
        as [(H1 & H2 & E) | [(H1 & H2 & H3 & r & E) | (H1 & H2 & E)]];
        rewrite E.
      * split; [discriminate|]. split; [auto|].
        intros _ Hn. exfalso. apply Hn. auto.
      * split; [|split].
        -- intros r' Hr. injection Hr as <-.
           split; [exact (calculate_rmse_nonneg gt traj r E)|].
           split; [|exact Hlen]. rewrite <- Hl. auto.
        -- discriminate.
        -- intros Hn _. exfalso. apply Hn. rewrite <- Hl. auto.
      * split; [discriminate|]. split; [discriminate|].
        intros _ _. now exists ValueError.
    + split; [discriminate|]. split; [discriminate|].
      intros _ _. now exists e'.
  - destruct (assign_free 0 names params _) as [[[]|e'] merged];
      [discriminate Hko|].
    split; [discriminate|]. split; [discriminate|].
    intros _ _. now exists e'.
Qed.

Lemma objective_needs_matching_ground_truth_witness :
  let st0 := {| call_count := 0; current_stage := "Stage B (Slide)";
                stdout := [];
                heap := [[("elasticity"%string, 0.9); ("mass"%string, 12.0)]] |} in
  exists e : exn,
    fst (objective_function ballistic [0.5] ["friction"%string] 0%nat
           [(0, 299); (0, 298)] 3 [] st0) = Raise e.
Proof.
  intros st0.
  apply (proj2 (proj2 (objective_needs_matching_ground_truth ballistic [0.5]
                         ["friction"%string] 0%nat [(0, 299); (0, 298)] 3 []
                         st0))).
  - intros (_ & _ & [H|[H|H]]); discriminate H.
  - intros [H _]. discriminate H.
Defined.

(** ** The objective of [optimizer.py] *)

Lemma optimizer_objective_eq (pm : Pymunk) (p0 p1 p2 : R) (rest : list R)
    (st : BayesianOptimizer.state) :
  BayesianOptimizer._objective pm (p0 :: p1 :: p2 :: rest) st =
  let st1 := BayesianOptimizer.count_call st in
  match Simulator.__init__ pm
          (Some [("friction", p0); ("elasticity", p1); ("mass", p2)]%string) with
  | Raise e => (Raise e, st1)
  | Ok simulator =>
      match _calculate_rmse
              (BayesianOptimizer.ground_truth_trajectory (BayesianOptimizer.self st))
              (snd (Simulator.run_simulation_for_trajectory pm simulator
                      (BayesianOptimizer.simulation_steps (BayesianOptimizer.self st))
                      (BayesianOptimizer.impulses (BayesianOptimizer.self st)))) with
      | Raise e => (Raise e, st1)
      | Ok rmse =>
          (Ok rmse,
           BayesianOptimizer.print
             (BayesianOptimizer.Guess
                (BayesianOptimizer.objective_call_count (BayesianOptimizer.self st) + 1)
                p0 p1 p2 rmse) st1)
      end
  end.
Proof. reflexivity. Qed.

(** X13.  [_objective] reads exactly three values.  With fewer than
    three it raises [IndexError], having counted the call and printed
    nothing; with more than three the surplus is never read. *)
Theorem optimizer_objective_arity (pm : Pymunk) (params : list R)
    (st : BayesianOptimizer.state) :
  ((length params < 3)%nat ->
   BayesianOptimizer._objective pm params st =
   (Raise IndexError, BayesianOptimizer.count_call st)) /\
  ((3 <= length params)%nat ->
   BayesianOptimizer._objective pm params st =
   BayesianOptimizer._objective pm (firstn 3 params) st).
Proof.
  destruct params as [|p0 [|p1 [|p2 rest]]]; simpl length; split; intros H;
    try lia; try reflexivity.
Qed.

Lemma optimizer_objective_arity_witness :
  let st0 := {| BayesianOptimizer.self :=
                  BayesianOptimizer.__init__ [(0, 299); (0, 298)]
                    search_space_c 2 [];
                BayesianOptimizer.out := [] |} in
  BayesianOptimizer._objective ballistic [0.5; 0.9] st0 =
    (Raise IndexError, BayesianOptimizer.count_call st0) /\
  BayesianOptimizer._objective ballistic [0.5; 0.9; 12.0; 7.0] st0 =
    BayesianOptimizer._objective ballistic [0.5; 0.9; 12.0] st0.
Proof.
  intros st0. split.
  - apply (proj1 (optimizer_objective_arity ballistic [0.5; 0.9] st0)).
    simpl. lia.
  - apply (proj2 (optimizer_objective_arity ballistic [0.5; 0.9; 12.0; 7.0] st0)).
    simpl. lia.
Defined.

(** X14.  What [_objective] returns and leaves behind.  A returned
    number is non-negative and comes only from a non-empty ground truth
    and a positive step count; NaN comes only from an empty ground truth
    with a step count [<= 0].  An evaluation that returns has printed
    exactly one line, with the new count, the first three values and the
    returned value; one that raises has printed nothing; either way the
    counter is one higher and the rest of the object is as it was.  And
    the length of the ground truth is no obstacle: whatever
    [objective_function] of [main.py] returns for these values (free
    names friction, elasticity, mass, nothing fixed, the object's ground
    truth, step count and schedule), [_objective] returns too. *)
Theorem optimizer_objective_outcomes (pm : Pymunk) (params : list R)
    (st : BayesianOptimizer.state) :
  let out := BayesianOptimizer._objective pm params st in
  let o := BayesianOptimizer.self st in
  let count := (BayesianOptimizer.objective_call_count o + 1)%Z in
  (forall r : R,
      fst out = Ok (Num r) ->
      0 <= r /\ BayesianOptimizer.ground_truth_trajectory o <> [] /\
      (0 < BayesianOptimizer.simulation_steps o)%Z) /\
  (fst out = Ok NaN ->
   BayesianOptimizer.ground_truth_trajectory o = [] /\
   (BayesianOptimizer.simulation_steps o <= 0)%Z) /\
  (forall v : npfloat,
      fst out = Ok v ->
      exists (p0 p1 p2 : R) (rest : list R),
        params = p0 :: p1 :: p2 :: rest /\
        BayesianOptimizer.out (snd out) =
          BayesianOptimizer.out st ++ [BayesianOptimizer.Guess count p0 p1 p2 v]) /\
  (forall e : exn,
      fst out = Raise e ->
      BayesianOptimizer.out (snd out) = BayesianOptimizer.out st) /\
  BayesianOptimizer.self (snd out) =
    {| BayesianOptimizer.ground_truth_trajectory :=
         BayesianOptimizer.ground_truth_trajectory o;
       BayesianOptimizer.search_space := BayesianOptimizer.search_space o;
       BayesianOptimizer.simulation_steps := BayesianOptimizer.simulation_steps o;
       BayesianOptimizer.impulses := BayesianOptimizer.impulses o;
       BayesianOptimizer.objective_call_count := count |} /\
  (forall (fixed_params : ref) (pst : pystate) (v : npfloat),
      heap_get (heap pst) fixed_params = [] ->
      fst (objective_function pm params
             ["friction"; "elasticity"; "mass"]%string fixed_params
             (BayesianOptimizer.ground_truth_trajectory o)
             (BayesianOptimizer.simulation_steps o)
             (BayesianOptimizer.impulses o) pst) = Ok v ->
      fst out = Ok v).
Proof.
  intros out o count. unfold out, o, count.
  assert (Hmain : forall (fixed_params : ref) (pst : pystate) (v : npfloat),
      heap_get (heap pst) fixed_params = [] ->
      fst (objective_function pm params
             ["friction"; "elasticity"; "mass"]%string fixed_params
             (BayesianOptimizer.ground_truth_trajectory (BayesianOptimizer.self st))
             (BayesianOptimizer.simulation_steps (BayesianOptimizer.self st))
             (BayesianOptimizer.impulses (BayesianOptimizer.self st)) pst) = Ok v ->
      fst (BayesianOptimizer._objective pm params st) = Ok v).
  { intros fixed_params pst v Hfixed.
    rewrite objective_function_eq, Hfixed. cbn [fst].
    destruct params as [|p0 [|p1 [|p2 rest]]]; try discriminate.
    rewrite optimizer_objective_eq. cbv zeta.
    unfold objective_value.
    change (assign_free 0 ["friction"; "elasticity"; "mass"]%string
              (p0 :: p1 :: p2 :: rest) [])
      with (Ok tt, [("friction", p0); ("elasticity", p1); ("mass", p2)]%string).
    cbv iota beta.
    destruct (Simulator.__init__ pm _) as [simulator|e]; [|discriminate].
    intros H. apply calculate_rmse_refined in H. now rewrite H. }
  destruct params as [|p0 [|p1 [|p2 rest]]];
    try (split; [discriminate|]; split; [discriminate|];
         split; [discriminate|]; split; [reflexivity|];
         split; [reflexivity | exact Hmain]).
  revert Hmain. rewrite optimizer_objective_eq. cbv zeta. intros Hmain.
  destruct (Simulator.__init__ pm _) as [simulator|e].
  - pose proof (run_trajectory_length pm simulator
                  (BayesianOptimizer.simulation_steps (BayesianOptimizer.self st))
                  (BayesianOptimizer.impulses (BayesianOptimizer.self st))) as Hl.
    set (traj := snd (Simulator.run_simulation_for_trajectory pm simulator _ _))
      in *.
    destruct (_calculate_rmse_trichotomy
                (BayesianOptimizer.ground_truth_trajectory (BayesianOptimizer.self st))
                traj)
      as [(H1 & H2 & E) | [(H1 & H2 & r & E & Hr) | (H1 & H2 & E)]];
      rewrite E in *.
    + split; [discriminate|]. split.
      * intros _. split; [exact H1|]. rewrite H2 in Hl. simpl in Hl. lia.
      * split.
        -- intros v Hv. injection Hv as <-. exists p0, p1, p2, rest.
           split; reflexivity.
        -- split; [discriminate|]. split; [reflexivity | exact Hmain].
    + split.
      * intros r' Hr'. injection Hr' as <-. split; [exact Hr|].
        split; [exact H1|]. destruct traj; [contradiction | simpl in Hl; lia].
      * split; [discriminate|]. split.
        -- intros v Hv. injection Hv as <-. exists p0, p1, p2, rest.
           split; reflexivity.
        -- split; [discriminate|]. split; [reflexivity | exact Hmain].
    + split; [discriminate|]. split; [discriminate|].
      split; [discriminate|]. split; [reflexivity|].
      split; [reflexivity | exact Hmain].
  - split; [discriminate|]. split; [discriminate|].
    split; [discriminate|]. split; [reflexivity|].
    split; [reflexivity | exact Hmain].
Qed.

Lemma optimizer_objective_outcomes_witness :
  let st0 := {| BayesianOptimizer.self :=
                  BayesianOptimizer.__init__ [(0, 299); (0, 298)]
                    search_space_c 5 [(0%Z, (0, 8000))];
                BayesianOptimizer.out := [] |} in
  BayesianOptimizer.out
    (snd (BayesianOptimizer._objective ballistic [0.5; 0.9] st0)) = [].
Proof.
  intros st0.
  destruct (optimizer_objective_outcomes ballistic [0.5; 0.9] st0)
    as (_ & _ & _ & H & _).
  apply (H IndexError). reflexivity.
Defined.

(** X15.  The two objectives compute the same value.  For a ground truth
    that has as many points as the object's step count, [_objective] of
    [optimizer.py] returns (or raises) exactly what [objective_function]
    of [main.py] returns (or raises) for the same values, with the free
    names friction, elasticity, mass in this order, nothing fixed, and
    the object's ground truth, step count and schedule. *)
Theorem objectives_agree (pm : Pymunk) (params : list R) (fixed_params : ref)
    (st : pystate) (bst : BayesianOptimizer.state) :
  heap_get (heap st) fixed_params = [] ->
  length (BayesianOptimizer.ground_truth_trajectory (BayesianOptimizer.self bst))
    = Z.to_nat (BayesianOptimizer.simulation_steps (BayesianOptimizer.self bst)) ->
  fst (BayesianOptimizer._objective pm params bst) =
  fst (objective_function pm params ["friction"; "elasticity"; "mass"]%string
         fixed_params
         (BayesianOptimizer.ground_truth_trajectory (BayesianOptimizer.self bst))
         (BayesianOptimizer.simulation_steps (BayesianOptimizer.self bst))
         (BayesianOptimizer.impulses (BayesianOptimizer.self bst)) st).
Proof.
  intros Hfixed Hlen. rewrite objective_function_eq, Hfixed. cbn [fst].
  destruct params as [|p0 [|p1 [|p2 rest]]]; try reflexivity.
  rewrite optimizer_objective_eq. cbv zeta.
  unfold objective_value.
  change (assign_free 0 ["friction"; "elasticity"; "mass"]%string
            (p0 :: p1 :: p2 :: rest) [])
    with (Ok tt, [("friction", p0); ("elasticity", p1); ("mass", p2)]%string).
  cbv iota beta.
  destruct (Simulator.__init__ pm _) as [simulator|e]; [|reflexivity].
  rewrite _calculate_rmse_same_length
    by (now rewrite run_trajectory_length).
  destruct (calculate_rmse _ _); reflexivity.
Qed.

Lemma objectives_agree_witness :
  let st0 := {| call_count := 0; current_stage := "Stage C (Refine)";
                stdout := []; heap := [[]] |} in
  let bst := {| BayesianOptimizer.self :=
                  BayesianOptimizer.__init__ [(0, 299); (0, 298)]
                    search_space_c 2 [(0%Z, (0, 8000))];
                BayesianOptimizer.out := [] |} in
  fst (BayesianOptimizer._objective ballistic [0.5; 0.9; 12.0] bst) =
  fst (objective_function ballistic [0.5; 0.9; 12.0]
         ["friction"; "elasticity"; "mass"]%string 0%nat
         [(0, 299); (0, 298)] 2 [(0%Z, (0, 8000))] st0).
Proof.
  intros st0 bst.
  apply (objectives_agree ballistic [0.5; 0.9; 12.0] 0%nat st0 bst);
    reflexivity.
Defined.

(** ** The controller: failures *)

Lemma bind_raise {A B : Type} (c : M A) (k : A -> M B) (st st' : pystate)
    (e : exn) :
  c st = (Raise e, st') -> bind c k st = (Raise e, st').
Proof.
  intros H. unfold bind. now rewrite H.
Qed.

(** X16.  The controller stops at the first failure and runs nothing
    after it.  If the engine refuses the ground-truth scene, no search
    is made at all: the error comes back with only the Stage A header
    printed.  If a search raises, in Stage A, B or C, the same error
    comes back in the state that search left; and if Stage A's search
    returns a point with fewer than two coordinates, the controller
    raises [IndexError] in the state the search left. *)
Theorem staged_calibration_stops_at_first_failure (pm : Pymunk) (sk : Skopt)
    (st0 : pystate) :
  let headerA :=
    enter_stage "Stage A (Bounce)" "Isolating Elasticity and Mass" st0 in
  let stA := with_dict [("friction"%string, 0.5)] headerA in
  let objective_a w :=
    partial_objective pm ["elasticity"; "mass"]%string (length (heap st0))
      (snd (Simulator.run_simulation_for_trajectory pm w EXP_A_STEPS EXP_A_IMPULSES))
      EXP_A_STEPS EXP_A_IMPULSES in
  let stB ea ma s1 :=
    with_dict [("elasticity"%string, ea); ("mass"%string, ma)]
      (enter_stage "Stage B (Slide)" "Isolating Friction"
         (printed (StageALine ea ma) s1)) in
  let objective_b w s1 :=
    partial_objective pm ["friction"]%string (length (heap s1))
      (snd (Simulator.run_simulation_for_trajectory pm w EXP_B_STEPS EXP_B_IMPULSES))
      EXP_B_STEPS EXP_B_IMPULSES in
  let stC fb s2 :=
    with_dict []
      (enter_stage "Stage C (Refine)" "Final Refinement of All Parameters"
         (printed (StageBLine fb) s2)) in
  let objective_c w s2 :=
    partial_objective pm ["friction"; "elasticity"; "mass"]%string
      (length (heap s2))
      (snd (Simulator.run_simulation_for_trajectory pm w EXP_C_STEPS EXP_C_IMPULSES))
      EXP_C_STEPS EXP_C_IMPULSES in
  (forall e : exn,
      Simulator.__init__ pm (Some GROUND_TRUTH_PARAMS) = Raise e ->
      run_staged_calibration pm sk st0 = (Raise e, headerA)) /\
  (forall (w : Space pm) (e : exn) (s1 : pystate),
      Simulator.__init__ pm (Some GROUND_TRUTH_PARAMS) = Ok w ->
      gp_minimize sk (objective_a w) search_space_a 50 None 25 42 false stA
        = (Raise e, s1) ->
      run_staged_calibration pm sk st0 = (Raise e, s1)) /\
  (forall (w : Space pm) (ra : OptimizeResult) (s1 : pystate),
      Simulator.__init__ pm (Some GROUND_TRUTH_PARAMS) = Ok w ->
      gp_minimize sk (objective_a w) search_space_a 50 None 25 42 false stA
        = (Ok ra, s1) ->
      (length (x ra) < 2)%nat ->
      run_staged_calibration pm sk st0 = (Raise IndexError, s1)) /\
  (forall (w : Space pm) (ra : OptimizeResult) (ea ma : R) (rest : list R)
          (e : exn) (s1 s2 : pystate),
      Simulator.__init__ pm (Some GROUND_TRUTH_PARAMS) = Ok w ->
      gp_minimize sk (objective_a w) search_space_a 50 None 25 42 false stA
        = (Ok ra, s1) ->
      x ra = ea :: ma :: rest ->
      gp_minimize sk (objective_b w s1) search_space_b 30 None 15 42 false
        (stB ea ma s1) = (Raise e, s2) ->
      run_staged_calibration pm sk st0 = (Raise e, s2)) /\
  (forall (w : Space pm) (ra rb : OptimizeResult) (ea ma fb : R)
          (rest_a rest_b : list R) (e : exn) (s1 s2 s3 : pystate),
      Simulator.__init__ pm (Some GROUND_TRUTH_PARAMS) = Ok w ->
      gp_minimize sk (objective_a w) search_space_a 50 None 25 42 false stA
        = (Ok ra, s1) ->
      x ra = ea :: ma :: rest_a ->
      gp_minimize sk (objective_b w s1) search_space_b 30 None 15 42 false
        (stB ea ma s1) = (Ok rb, s2) ->
      x rb = fb :: rest_b ->
      gp_minimize sk (objective_c w s2) search_space_c 70
        (Some [fb; ea; ma]) 35 42 false (stC fb s2) = (Raise e, s3) ->
      run_staged_calibration pm sk st0 = (Raise e, s3)).
Proof.
  intros headerA stA objective_a stB objective_b stC objective_c.
  split; [|split; [|split; [|split]]].
  - intros e Hsim. unfold run_staged_calibration.
    do 4 run_step.
    apply bind_raise. unfold lift. now rewrite Hsim.
  - intros w e s1 Hsim HA. unfold run_staged_calibration.
    do 4 run_step. sim_step Hsim. do 2 run_step.
    apply bind_raise. exact HA.
  - intros w [xa] s1 Hsim HA Hlen. unfold run_staged_calibration.
    do 4 run_step. sim_step Hsim. do 2 run_step.
    erewrite bind_ok by exact HA.
    simpl in Hlen. destruct xa as [|a [|b xa]]; simpl in Hlen; try lia.
    + apply bind_raise. reflexivity.
    + run_step. apply bind_raise. reflexivity.
  - intros w [xa] ea ma rest e s1 s2 Hsim HA Hx HB.
    simpl in Hx. subst xa. unfold run_staged_calibration.
    do 4 run_step. sim_step Hsim. do 2 run_step.
    erewrite bind_ok by exact HA.
    do 5 run_step.
    do 4 run_step. sim_step Hsim. do 3 run_step.
    apply bind_raise. exact HB.
  - intros w [xa] [xb] ea ma fb rest_a rest_b e s1 s2 s3 Hsim HA Hxa HB Hxb HC.
    simpl in Hxa, Hxb. subst xa xb. unfold run_staged_calibration.
    do 4 run_step. sim_step Hsim. do 2 run_step.
    erewrite bind_ok by exact HA.
    do 5 run_step.
    do 4 run_step. sim_step Hsim. do 3 run_step.
    erewrite bind_ok by exact HB.
    do 3 run_step.
    do 4 run_step. sim_step Hsim. run_step.
    apply bind_raise. exact HC.
Qed.

Lemma staged_calibration_failure_witness :
  let st0 := {| call_count := 0; current_stage := ""; stdout := [];
                heap := [] |} in
  run_staged_calibration refusing corner_stub st0 =
    (Raise BackendError,
     enter_stage "Stage A (Bounce)" "Isolating Elasticity and Mass" st0) /\
  run_staged_calibration ballistic failing_stub st0 =
    (Raise BackendError,
     with_dict [("friction"%string, 0.5)]
       (enter_stage "Stage A (Bounce)" "Isolating Elasticity and Mass" st0)).
Proof.
  intros st0. split.
  - apply (proj1 (staged_calibration_stops_at_first_failure refusing
                    corner_stub st0) BackendError).
    reflexivity.
  - apply (proj1 (proj2 (staged_calibration_stops_at_first_failure ballistic
                           failing_stub st0))
             {| p_pos := (0, 300); p_vel := (0, 0); p_mass := 12.0;
                p_gravity := (0, -1000) |} BackendError).
    + reflexivity.
    + reflexivity.
Defined.

(** ** Sequences of evaluations *)

Lemma evaluate_all_cons {S A : Type} (f : list R -> S -> result A * S)
    (p : list R) (points : list (list R)) (st : S) :
  evaluate_all f (p :: points) st = evaluate_all f points (snd (f p st)).
Proof. reflexivity. Qed.

Lemma evaluate_all_objective (pm : Pymunk) (names : list string)
    (fixed_params : ref) (gt : list Vec) (steps : Z) (impulses : schedule)
    (points : list (list R)) :
  forall st : pystate,
    (fixed_params < length (heap st))%nat ->
    call_count
      (evaluate_all
         (fun p => objective_function pm p names fixed_params gt steps impulses)
         points st) = (call_count st + Z.of_nat (length points))%Z /\
    current_stage
      (evaluate_all
         (fun p => objective_function pm p names fixed_params gt steps impulses)
         points st) = current_stage st /\
    (length (heap st) <=
     length (heap
       (evaluate_all
          (fun p => objective_function pm p names fixed_params gt steps impulses)
          points st)))%nat /\
    (forall r : ref, (r < length (heap st))%nat ->
        heap_get
          (heap
             (evaluate_all
                (fun p => objective_function pm p names fixed_params gt steps impulses)
                points st)) r = heap_get (heap st) r).
Proof.
  induction points as [|p points IH]; intros st Hfixed.
  - simpl. repeat split; lia.
  - rewrite evaluate_all_cons, objective_function_eq. cbn [snd].
    set (st1 := after_evaluation st _ _).
    assert (Hheap : heap st1 = heap st ++ [snd (assign_free 0 names p
                                              (heap_get (heap st) fixed_params))])
      by reflexivity.
    assert (Hlen : length (heap st1) = S (length (heap st)))
      by (rewrite Hheap, length_app; simpl; lia).
    destruct (IH st1 ltac:(lia)) as (Hc & Hs & Hl & Hh).
    split; [rewrite Hc; unfold st1; cbn [after_evaluation call_count];
            simpl length; lia|].
    split; [rewrite Hs; reflexivity|]. split; [lia|].
    intros r Hr. rewrite Hh by lia. rewrite Hheap. now apply heap_get_app_old.
Qed.

(** X17.  Through any sequence of evaluations of the objective of
    [main.py], successful or not, [call_count] grows by one per
    evaluation, [current_stage] stays, and no dict that existed before
    is changed; so the fixed parameters are the same for every
    evaluation, and a point evaluated after the sequence gets the value
    it would have got before it. *)
Theorem evaluations_are_counted_and_independent (pm : Pymunk)
    (names : list string) (fixed_params : ref) (gt : list Vec) (steps : Z)
    (impulses : schedule) (points : list (list R)) (p : list R)
    (st : pystate) :
  (fixed_params < length (heap st))%nat ->
  let objective q :=
    objective_function pm q names fixed_params gt steps impulses in
  let st' := evaluate_all objective points st in
  call_count st' = (call_count st + Z.of_nat (length points))%Z /\
  current_stage st' = current_stage st /\
  (forall r : ref, (r < length (heap st))%nat ->
      heap_get (heap st') r = heap_get (heap st) r) /\
  fst (objective p st') = fst (objective p st).
Proof.
  intros Hfixed objective st'.
  destruct (evaluate_all_objective pm names fixed_params gt steps impulses
              points st Hfixed) as (Hc & Hs & _ & Hh).
  split; [exact Hc|]. split; [exact Hs|]. split; [exact Hh|].
  unfold st', objective. rewrite !objective_function_eq. cbn [fst].
  now rewrite (Hh fixed_params Hfixed).
Qed.

Lemma evaluations_are_counted_witness :
  let st0 := {| call_count := 0; current_stage := "Stage B (Slide)";
                stdout := [];
                heap := [[("elasticity"%string, 0.9); ("mass"%string, 12.0)]] |} in
  call_count
    (evaluate_all
       (fun q => objective_function ballistic q ["friction"%string] 0%nat
                   [(0, 299); (0, 298)] 2 [])
       [[0.5]; []; [0.7; 0.1]] st0) = 3%Z.
Proof.
  intros st0.
  apply (proj1 (evaluations_are_counted_and_independent ballistic
                  ["friction"%string] 0%nat [(0, 299); (0, 298)] 2 []
                  [[0.5]; []; [0.7; 0.1]] [0.5] st0 (le_n 1))).
Defined.

Lemma optimizer_objective_self (pm : Pymunk) (params : list R)
    (st : BayesianOptimizer.state) :
  BayesianOptimizer.self (snd (BayesianOptimizer._objective pm params st)) =
  BayesianOptimizer.self (BayesianOptimizer.count_call st).
Proof.
  unfold BayesianOptimizer._objective.
  destruct (py_index params 0); [|reflexivity].
  destruct (py_index params 1); [|reflexivity].
  destruct (py_index params 2); [|reflexivity].
  destruct (Simulator.__init__ pm _); [|reflexivity].
  destruct (_calculate_rmse _ _); reflexivity.
Qed.

Lemma optimizer_objective_value_of_self (pm : Pymunk) (params : list R)
    (st st' : BayesianOptimizer.state) :
  BayesianOptimizer.ground_truth_trajectory (BayesianOptimizer.self st') =
    BayesianOptimizer.ground_truth_trajectory (BayesianOptimizer.self st) ->
  BayesianOptimizer.simulation_steps (BayesianOptimizer.self st') =
    BayesianOptimizer.simulation_steps (BayesianOptimizer.self st) ->
  BayesianOptimizer.impulses (BayesianOptimizer.self st') =
    BayesianOptimizer.impulses (BayesianOptimizer.self st) ->
  fst (BayesianOptimizer._objective pm params st') =
  fst (BayesianOptimizer._objective pm params st).
Proof.
  intros Hg Hs Hi. unfold BayesianOptimizer._objective.
  destruct (py_index params 0); [|reflexivity].
  destruct (py_index params 1); [|reflexivity].
  destruct (py_index params 2); [|reflexivity].
  destruct (Simulator.__init__ pm _); [|reflexivity].
  cbn [BayesianOptimizer.count_call BayesianOptimizer.self
       BayesianOptimizer.ground_truth_trajectory
       BayesianOptimizer.simulation_steps BayesianOptimizer.impulses].
  rewrite Hg, Hs, Hi.
  destruct (_calculate_rmse _ _); reflexivity.
Qed.

(** X18.  Through any sequence of calls of [_objective], successful or
    not, the object's counter grows by one per call and is never reset,
    its ground truth, search space, step count and schedule stay as they
    were, and a point evaluated after the sequence gets the value it
    would have got before it. *)
Theorem optimizer_calls_are_counted_and_independent (pm : Pymunk)
    (points : list (list R)) (p : list R) (st : BayesianOptimizer.state) :
  let st' := evaluate_all (BayesianOptimizer._objective pm) points st in
  BayesianOptimizer.self st' =
    {| BayesianOptimizer.ground_truth_trajectory :=
         BayesianOptimizer.ground_truth_trajectory (BayesianOptimizer.self st);
       BayesianOptimizer.search_space :=
         BayesianOptimizer.search_space (BayesianOptimizer.self st);
       BayesianOptimizer.simulation_steps :=
         BayesianOptimizer.simulation_steps (BayesianOptimizer.self st);
       BayesianOptimizer.impulses :=
         BayesianOptimizer.impulses (BayesianOptimizer.self st);
       BayesianOptimizer.objective_call_count :=
         (BayesianOptimizer.objective_call_count (BayesianOptimizer.self st)
          + Z.of_nat (length points))%Z |} /\
  fst (BayesianOptimizer._objective pm p st') =
  fst (BayesianOptimizer._objective pm p st).
Proof.
  intros st'.
  assert (H : BayesianOptimizer.self st' =
    {| BayesianOptimizer.ground_truth_trajectory :=
         BayesianOptimizer.ground_truth_trajectory (BayesianOptimizer.self st);
       BayesianOptimizer.search_space :=
         BayesianOptimizer.search_space (BayesianOptimizer.self st);
       BayesianOptimizer.simulation_steps :=
         BayesianOptimizer.simulation_steps (BayesianOptimizer.self st);
       BayesianOptimizer.impulses :=
         BayesianOptimizer.impulses (BayesianOptimizer.self st);
       BayesianOptimizer.objective_call_count :=
         (BayesianOptimizer.objective_call_count (BayesianOptimizer.self st)
          + Z.of_nat (length points))%Z |}).
  { unfold st'. clear st'. revert st.
    induction points as [|q points IH]; intros st.
    - simpl. destruct st as [[g ss n i c] o]. simpl. f_equal. lia.
    - cbn [evaluate_all fold_left].
      fold (evaluate_all (BayesianOptimizer._objective pm) points
              (snd (BayesianOptimizer._objective pm q st))).
      rewrite IH, optimizer_objective_self. simpl. f_equal. lia. }
  split; [exact H|].
  apply optimizer_objective_value_of_self; rewrite H; reflexivity.
Qed.
